(** * Resume analyzer: the upload endpoint of [server.js]

    A shallow embedding of the Express handler for [POST /resume/upload]
    and of its two helpers [extractTextFromImage] and [askGeminiForJSON].

    JavaScript strings are sequences of UTF-16 code units, the uploaded
    buffer is a sequence of bytes, and the three outside services (pdf-parse,
    Tesseract and the generative-AI client) are the fields of a record of
    capabilities that act on a hidden state of their own.  The handler is
    written in a small state-and-exception monad over a [World] that also
    records the console and, for every capability, the arguments it was
    called with. *)

From Stdlib Require Import List ZArith NArith Lia Bool Ascii String.
From Stdlib Require Import Strings.Byte.
From Stdlib Require Import DecimalString.
Import ListNotations.

Set Implicit Arguments.
Set Warnings "-register-all".

(** ** JavaScript strings *)

Module JsString.

(** One UTF-16 code unit. *)
Definition char16 := N.

Definition jsstring := list char16.

(** The code units of an ASCII literal of the source. *)
Definition lit (s : string) : jsstring :=
  map N_of_ascii (list_ascii_of_string s).

Definition ch (a : ascii) : char16 := N_of_ascii a.

(** U+0022, the double quote. *)
Definition dquote : char16 := 34%N.

(** U+000A, the line feed that ends each line of a template literal. *)
Definition nl : jsstring := [10%N].

(** [String.prototype.length]. *)
Definition jslength (s : jsstring) : nat := List.length s.

(** ECMAScript WhiteSpace and LineTerminator code points, the set that
    [String.prototype.trim] strips. *)
Definition is_white (c : char16) : bool :=
  (  (c =? 9)  || (c =? 10) || (c =? 11) || (c =? 12) || (c =? 13)
  || (c =? 32) || (c =? 160) || (c =? 5760)
  || ((8192 <=? c) && (c <=? 8202))
  || (c =? 8232) || (c =? 8233) || (c =? 8239) || (c =? 8287)
  || (c =? 12288) || (c =? 65279))%N.

Fixpoint trimStart (s : jsstring) : jsstring :=
  match s with
  | c :: r => if is_white c then trimStart r else s
  | [] => []
  end.

Definition trimEnd (s : jsstring) : jsstring :=
  rev (trimStart (rev s)).

(** [String.prototype.trim]. *)
Definition trim (s : jsstring) : jsstring := trimEnd (trimStart s).

(** ToBoolean on a string: only the empty string is falsy. *)
Definition truthy (s : jsstring) : bool :=
  match s with [] => false | _ :: _ => true end.

(** [x || d] where [x] is a string or [undefined]. *)
Definition or_default (x : option jsstring) (d : jsstring) : jsstring :=
  match x with
  | Some s => if truthy s then s else d
  | None => d
  end.

(** [String(n)] for a length: its decimal digits. *)
Definition of_nat (n : nat) : jsstring :=
  lit (NilEmpty.string_of_uint (Nat.to_uint n)).

(** [String.prototype.repeat] on a one-unit string. *)
Definition repeat1 (c : char16) (n : nat) : jsstring := List.repeat c n.

(** [String.prototype.indexOf] with a one-unit needle: the first position,
    or -1. *)
Fixpoint indexOf (s : jsstring) (c : char16) : Z :=
  match s with
  | [] => -1
  | x :: r =>
      if (x =? c)%N then 0
      else let i := indexOf r c in if (i <? 0)%Z then -1 else i + 1
  end%Z.

(** [String.prototype.lastIndexOf] with a one-unit needle. *)
Fixpoint lastIndexOf (s : jsstring) (c : char16) : Z :=
  match s with
  | [] => -1
  | x :: r =>
      let i := lastIndexOf r c in
      if (0 <=? i)%Z then i + 1
      else if (x =? c)%N then 0 else -1
  end%Z.

(** [String.prototype.slice (a, b)]: negative arguments count from the
    end, both are clamped to the string, and an empty range gives the
    empty string. *)
Definition slice (s : jsstring) (a b : Z) : jsstring :=
  let len := Z.of_nat (List.length s) in
  let from := if (a <? 0)%Z then Z.max (len + a) 0 else Z.min a len in
  let to := if (b <? 0)%Z then Z.max (len + b) 0 else Z.min b len in
  firstn (Z.to_nat (to - from)) (skipn (Z.to_nat from) s).

Fixpoint startsWith (s p : jsstring) : bool :=
  match p, s with
  | [], _ => true
  | x :: p', y :: s' => (x =? y)%N && startsWith s' p'
  | _ :: _, [] => false
  end.

(** [String.prototype.includes]. *)
Fixpoint includes (s p : jsstring) : bool :=
  match s with
  | [] => startsWith [] p
  | _ :: r => startsWith s p || includes r p
  end.

(** A string that does not start with white space. *)
Definition starts_clean (s : jsstring) : Prop :=
  match s with
  | [] => True
  | c :: _ => is_white c = false
  end.

End JsString.
Export JsString.

(** ** JSON values and [JSON.parse] *)

Module Json.

(** A JSON number, kept exact as [mant * 10 ^ expo] with no trailing zero
    in [mant].  The rounding to binary64 that the engine applies to a
    number is not part of this model, and neither is the sign of zero. *)
Record number := { mant : Z; expo : Z }.

Inductive json :=
| JNull
| JBool (b : bool)
| JNumber (n : number)
| JString (s : jsstring)
| JArray (l : list json)
| JObject (m : list (jsstring * json)).

Fixpoint strip10 (fuel : nat) (m e : Z) : number :=
  match fuel with
  | O => {| mant := m; expo := e |}
  | S f =>
      if (m mod 10 =? 0)%Z then strip10 f (m / 10) (e + 1)
      else {| mant := m; expo := e |}
  end.

Definition mk_number (m e : Z) : number :=
  if (m =? 0)%Z then {| mant := 0; expo := 0 |}
  else strip10 (S (Z.to_nat (Z.log2 (Z.abs m)))) m e.

(** The number value of an integer, such as a string length. *)
Definition num_of_Z (z : Z) : number := mk_number z 0.

(** The integer a number stands for, when its exponent is not negative. *)
Definition num_to_Z (n : number) : option Z :=
  if (0 <=? expo n)%Z then Some (mant n * 10 ^ expo n)%Z else None.

Fixpoint jsstring_eqb (a b : jsstring) : bool :=
  match a, b with
  | [], [] => true
  | x :: a', y :: b' => (x =? y)%N && jsstring_eqb a' b'
  | _, _ => false
  end.

(** Property lookup, [o[k]]. *)
Fixpoint obj_get (k : jsstring) (m : list (jsstring * json)) : option json :=
  match m with
  | [] => None
  | (k', v) :: r => if jsstring_eqb k k' then Some v else obj_get k r
  end.

(** Defining a data property while parsing: a repeated key keeps its place
    and takes the later value.  (The engine's reordering of keys that look
    like array indices is not modelled.) *)
Fixpoint obj_set (k : jsstring) (v : json) (m : list (jsstring * json))
  : list (jsstring * json) :=
  match m with
  | [] => [(k, v)]
  | (k', v') :: r =>
      if jsstring_eqb k k' then (k', v) :: r else (k', v') :: obj_set k v r
  end.

(** The names of an object's own properties, in order. *)
Definition keys (v : json) : list jsstring :=
  match v with
  | JObject m => map fst m
  | _ => []
  end.

Definition field (k : jsstring) (v : json) : option json :=
  match v with
  | JObject m => obj_get k m
  | _ => None
  end.

(** How deep the arrays and objects of a value are nested. *)
Fixpoint depth (v : json) : nat :=
  match v with
  | JArray l => S (fold_right (fun x m => Nat.max (depth x) m) 0%nat l)
  | JObject m => S (fold_right (fun kv d => Nat.max (depth (snd kv)) d) 0%nat m)
  | _ => 0%nat
  end.

(** *** Lexical pieces of the JSON grammar *)

(** JSON white space: tab, line feed, carriage return, space. *)
Definition json_ws (c : char16) : bool :=
  ((c =? 9) || (c =? 10) || (c =? 13) || (c =? 32))%N.

Fixpoint skip_ws (s : jsstring) : jsstring :=
  match s with
  | c :: r => if json_ws c then skip_ws r else s
  | [] => []
  end.

Definition is_digit (c : char16) : bool := ((48 <=? c) && (c <=? 57))%N.

Definition digit_val (c : char16) : Z := Z.of_N (c - 48).

Definition hex_val (c : char16) : option N :=
  if ((48 <=? c) && (c <=? 57))%N then Some (c - 48)%N
  else if ((65 <=? c) && (c <=? 70))%N then Some (c - 55)%N
  else if ((97 <=? c) && (c <=? 102))%N then Some (c - 87)%N
  else None.

Definition hex4 (a b c d : char16) : option char16 :=
  match hex_val a, hex_val b, hex_val c, hex_val d with
  | Some x, Some y, Some z, Some w =>
      Some (((x * 16 + y) * 16 + z) * 16 + w)%N
  | _, _, _, _ => None
  end.

(** The character a one-letter escape stands for. *)
Definition unescape (c : char16) : option char16 :=
  if (c =? 34)%N then Some 34%N            (* quote *)
  else if (c =? 92)%N then Some 92%N       (* backslash *)
  else if (c =? 47)%N then Some 47%N       (* slash *)
  else if (c =? 98)%N then Some 8%N        (* b: backspace *)
  else if (c =? 102)%N then Some 12%N      (* f: form feed *)
  else if (c =? 110)%N then Some 10%N      (* n: line feed *)
  else if (c =? 114)%N then Some 13%N      (* r: carriage return *)
  else if (c =? 116)%N then Some 9%N       (* t: tab *)
  else None.

(** The characters of a string after its opening quote, up to and
    including the closing quote. *)
Fixpoint parse_chars (s acc : jsstring) : option (jsstring * jsstring) :=
  match s with
  | [] => None
  | c :: r =>
      if (c =? dquote)%N then Some (rev acc, r)
      else if (c =? 92)%N then
        match r with
        | [] => None
        | e :: r1 =>
            if (e =? 117)%N then
              match r1 with
              | h1 :: h2 :: h3 :: h4 :: r2 =>
                  match hex4 h1 h2 h3 h4 with
                  | Some u => parse_chars r2 (u :: acc)
                  | None => None
                  end
              | _ => None
              end
            else
              match unescape e with
              | Some u => parse_chars r1 (u :: acc)
              | None => None
              end
        end
      else if (c <? 32)%N then None
      else parse_chars r (c :: acc)
  end.

Fixpoint span_digits (s : jsstring) : list Z * jsstring :=
  match s with
  | c :: r =>
      if is_digit c then
        let (ds, rest) := span_digits r in (digit_val c :: ds, rest)
      else ([], s)
  | [] => ([], [])
  end.

Definition digits_to_Z (ds : list Z) : Z :=
  fold_left (fun acc d => acc * 10 + d)%Z ds 0%Z.

(** The integer part: a lone [0], or a non-empty run of digits that does
    not start with [0]. *)
Definition parse_int (s : jsstring) : option (list Z * jsstring) :=
  match s with
  | c :: r =>
      if (c =? 48)%N then Some ([0%Z], r)
      else if is_digit c then Some (span_digits s)
      else None
  | [] => None
  end.

Definition parse_frac (s : jsstring) : option (list Z * jsstring) :=
  match s with
  | c :: r =>
      if (c =? 46)%N then
        match span_digits r with
        | ([], _) => None
        | (ds, rest) => Some (ds, rest)
        end
      else Some ([], s)
  | [] => Some ([], [])
  end.

Definition parse_exp (s : jsstring) : option (Z * jsstring) :=
  match s with
  | c :: r =>
      if ((c =? 101) || (c =? 69))%N then
        let '(neg, r1) :=
          match r with
          | sg :: r' =>
              if (sg =? 45)%N then (true, r')
              else if (sg =? 43)%N then (false, r')
              else (false, r)
          | [] => (false, r)
          end in
        match span_digits r1 with
        | ([], _) => None
        | (ds, rest) =>
            Some (if neg then (- digits_to_Z ds)%Z else digits_to_Z ds, rest)
        end
      else Some (0%Z, s)
  | [] => Some (0%Z, [])
  end.

Definition parse_number (s : jsstring) : option (number * jsstring) :=
  let '(neg, s1) :=
    match s with
    | c :: r => if (c =? 45)%N then (true, r) else (false, s)
    | [] => (false, s)
    end in
  match parse_int s1 with
  | None => None
  | Some (ip, s2) =>
      match parse_frac s2 with
      | None => None
      | Some (fp, s3) =>
          match parse_exp s3 with
          | None => None
          | Some (e, s4) =>
              let m := digits_to_Z (ip ++ fp) in
              Some (mk_number (if neg then (- m)%Z else m)
                              (e - Z.of_nat (List.length fp)), s4)
          end
      end
  end.

Fixpoint strip_prefix (p s : jsstring) : option jsstring :=
  match p, s with
  | [], _ => Some s
  | x :: p', y :: s' => if (x =? y)%N then strip_prefix p' s' else None
  | _ :: _, [] => None
  end.

(** *** The recursive-descent parser *)

Inductive presult (A : Type) :=
| POk (a : A) (rest : jsstring)
| PErr
| PFuel.
Arguments PErr {A}.
Arguments PFuel {A}.

(** The elements of an array after the first one was found to exist,
    up to and including the closing bracket. *)
Fixpoint parse_elements (pv : jsstring -> presult json) (k : nat)
         (s : jsstring) (acc : list json) : presult (list json) :=
  match k with
  | O => PFuel
  | S k' =>
      match pv s with
      | POk v r =>
          match skip_ws r with
          | c :: r' =>
              if (c =? 44)%N then parse_elements pv k' r' (acc ++ [v])
              else if (c =? 93)%N then POk (acc ++ [v]) r'
              else PErr
          | [] => PErr
          end
      | PErr => PErr
      | PFuel => PFuel
      end
  end.

(** The members of an object, from a key up to and including the closing
    brace. *)
Fixpoint parse_members (pv : jsstring -> presult json) (k : nat)
         (s : jsstring) (acc : list (jsstring * json))
  : presult (list (jsstring * json)) :=
  match k with
  | O => PFuel
  | S k' =>
      match skip_ws s with
      | q :: r =>
          if (q =? dquote)%N then
            match parse_chars r [] with
            | Some (key, r1) =>
                match skip_ws r1 with
                | colon :: r2 =>
                    if (colon =? 58)%N then
                      match pv r2 with
                      | POk v r3 =>
                          match skip_ws r3 with
                          | c :: r4 =>
                              if (c =? 44)%N then
                                parse_members pv k' r4 (obj_set key v acc)
                              else if (c =? 125)%N then
                                POk (obj_set key v acc) r4
                              else PErr
                          | [] => PErr
                          end
                      | PErr => PErr
                      | PFuel => PFuel
                      end
                    else PErr
                | [] => PErr
                end
            | None => PErr
            end
          else PErr
      | [] => PErr
      end
  end.

Definition lift_option {A} (o : option (A * jsstring)) (f : A -> json)
  : presult json :=
  match o with
  | Some (a, r) => POk (f a) r
  | None => PErr
  end.

Fixpoint parse_value (fuel : nat) (s : jsstring) : presult json :=
  match fuel with
  | O => PFuel
  | S n =>
      match skip_ws s with
      | [] => PErr
      | c :: r =>
          if (c =? 123)%N then
            match skip_ws r with
            | c' :: r' =>
                if (c' =? 125)%N then POk (JObject []) r'
                else
                  match parse_members (parse_value n) n r [] with
                  | POk m rest => POk (JObject m) rest
                  | PErr => PErr
                  | PFuel => PFuel
                  end
            | [] => PErr
            end
          else if (c =? 91)%N then
            match skip_ws r with
            | c' :: r' =>
                if (c' =? 93)%N then POk (JArray []) r'
                else
                  match parse_elements (parse_value n) n r [] with
                  | POk l rest => POk (JArray l) rest
                  | PErr => PErr
                  | PFuel => PFuel
                  end
            | [] => PErr
            end
          else if (c =? dquote)%N then
            lift_option (parse_chars r []) JString
          else if (c =? 116)%N then
            lift_option (option_map (pair tt) (strip_prefix (lit "true") (c :: r)))
                        (fun _ => JBool true)
          else if (c =? 102)%N then
            lift_option (option_map (pair tt) (strip_prefix (lit "false") (c :: r)))
                        (fun _ => JBool false)
          else if (c =? 110)%N then
            lift_option (option_map (pair tt) (strip_prefix (lit "null") (c :: r)))
                        (fun _ => JNull)
          else if ((c =? 45) || is_digit c)%N then
            lift_option (parse_number (c :: r)) JNumber
          else PErr
      end
  end.

(** A value parser that never runs out of fuel and always consumes
    something, on every text shorter than [N]. *)
Definition productive (pv : jsstring -> presult json) (N : nat) : Prop :=
  forall s,
    (List.length s < N)%nat ->
    pv s <> PFuel
    /\ forall v r, pv s = POk v r -> (List.length r < List.length s)%nat.

(** The outcome of [JSON.parse]: the value, or the SyntaxError it throws.
    One more unit of fuel than the text has code units is always enough
    (see [ParserFacts.JSON_parse_fuel]). *)
Definition JSON_parse (s : jsstring) : option json :=
  match parse_value (S (List.length s)) s with
  | POk v rest =>
      match skip_ws rest with
      | [] => Some v
      | _ :: _ => None
      end
  | PErr => None
  | PFuel => None
  end.

End Json.
Export Json.

(** ** Completions, the outside services and the world *)

Module Runtime.

(** An [Error] object: its constructor's name and its [message]. *)
Record JsError := { err_name : jsstring; message : jsstring }.

Inductive nullish := JsNull | JsUndefined.

(** What a [throw] or a rejected promise carries: any value.  The handler
    only ever reads [.message] of it, so three kinds are told apart: an
    object with a string [message], [null] or [undefined] (reading a
    property of which throws a TypeError), and any other value, on which
    [.message] is [undefined]. *)
Inductive thrown :=
| ErrorObject (e : JsError)
| Nullish (n : nullish)
| Messageless.

Coercion ErrorObject : JsError >-> thrown.

(** How an awaited call ends. *)
Inductive completion (A : Type) :=
| Normal (a : A)
| Throw (x : thrown).
Arguments Throw {A} x.

(** A [Buffer]. *)
Definition bytes := list byte.

(** What [pdfParse] resolves to; [text] is [None] when the property is
    undefined. *)
Record PdfData := { text : option jsstring }.

(** What [Tesseract.recognize] resolves to: [result.data.text]. *)
Record RecognizeResult := { data_text : option jsstring }.

(** The capabilities the server consumes.  Each acts on a hidden state
    [E] of the outside world, so that a service may answer the same
    question differently from one call to the next.  [recognize] also
    reports the progress messages it hands to its [logger].
    [syntaxErrorMessage] is the engine's wording of the SyntaxError that
    [JSON.parse] throws on a text, [typeErrorMessage] its wording of the
    TypeError for reading [message] of [null] or [undefined], and
    [stringifyThrows] the error [JSON.stringify] throws on a value, if it
    throws (a RangeError when the value is nested too deep for the stack). *)
Record Env (E : Type) := {
  pdfParse : bytes -> E -> completion PdfData * E;
  recognize :
    bytes -> jsstring -> E -> (list jsstring * completion RecognizeResult) * E;
  generateContent : jsstring -> jsstring -> E -> completion jsstring * E;
  syntaxErrorMessage : jsstring -> jsstring;
  typeErrorMessage : nullish -> jsstring;
  stringifyThrows : json -> option JsError
}.

Inductive stream := Stdout | Stderr.

(** The world a request runs in: the hidden state of the services, the
    console, and the arguments of every call made to a service so far. *)
Record World (E : Type) := {
  ext : E;
  console : list (stream * jsstring);
  pdf_calls : list bytes;
  ocr_calls : list (bytes * jsstring);
  ai_calls : list (jsstring * jsstring)
}.

(** The file multer stores in memory, and the request as the handler
    reads it: [req.file] and [req.body.targetRole]. *)
Record File := { originalname : jsstring; buffer : bytes }.
Record Request := { file : option File; body_targetRole : option jsstring }.

(** What the handler writes: the status code and the value given to
    [res.json]. *)
Record Response := { status : Z; body : json }.

(** *** The monad of the handler: state and exceptions *)

Definition M (E A : Type) := World E -> completion A * World E.

Definition ret {E A} (a : A) : M E A := fun w => (Normal a, w).

Definition bind {E A B} (m : M E A) (k : A -> M E B) : M E B :=
  fun w =>
    match m w with
    | (Normal a, w') => k a w'
    | (Throw e, w') => (Throw e, w')
    end.

Definition throw {E A} (x : thrown) : M E A := fun w => (Throw x, w).

(** [try { m } catch (e) { h e }]. *)
Definition try_catch {E A} (m : M E A) (h : thrown -> M E A) : M E A :=
  fun w =>
    match m w with
    | (Normal a, w') => (Normal a, w')
    | (Throw e, w') => h e w'
    end.

Definition lift {E A} (c : completion A) : M E A := fun w => (c, w).

(** *** What a step leaves in the world *)

Definition logged {E} (st : stream) (lines : list jsstring) (w : World E)
  : World E :=
  {| ext := ext w;
     console := console w ++ map (pair st) lines;
     pdf_calls := pdf_calls w;
     ocr_calls := ocr_calls w;
     ai_calls := ai_calls w |}.

Definition after_pdf {E} (buf : bytes) (e' : E) (w : World E) : World E :=
  {| ext := e';
     console := console w;
     pdf_calls := pdf_calls w ++ [buf];
     ocr_calls := ocr_calls w;
     ai_calls := ai_calls w |}.

Definition after_ocr {E} (buf : bytes) (lang : jsstring)
           (progress : list jsstring) (e' : E) (w : World E) : World E :=
  {| ext := e';
     console := console w ++ map (pair Stdout) progress;
     pdf_calls := pdf_calls w;
     ocr_calls := ocr_calls w ++ [(buf, lang)];
     ai_calls := ai_calls w |}.

Definition after_ai {E} (model prompt : jsstring) (e' : E) (w : World E)
  : World E :=
  {| ext := e';
     console := console w;
     pdf_calls := pdf_calls w;
     ocr_calls := ocr_calls w;
     ai_calls := ai_calls w ++ [(model, prompt)] |}.

Definition emit {E} (st : stream) (lines : list jsstring) : M E unit :=
  fun w => (Normal tt, logged st lines w).

(** [console.log] and [console.error] of one already formatted line. *)
Definition console_log {E} (line : jsstring) : M E unit := emit Stdout [line].
Definition console_error {E} (line : jsstring) : M E unit := emit Stderr [line].

End Runtime.
Export Runtime.

Declare Scope js_scope.
Delimit Scope js_scope with js.
Notation "x <- m ;; k" := (bind m (fun x => k))
  (at level 61, m at next level, right associativity) : js_scope.
Notation "m ;; k" := (bind m (fun _ => k))
  (at level 61, right associativity) : js_scope.
Open Scope js_scope.

(** ** The server *)

Module Server.

Section WithEnv.

Variable E : Type.
Variable env : Env E.

(** *** Calls to the outside services

    Each call steps the hidden state of the services and notes its
    arguments in the world. *)

Definition call_pdfParse (buf : bytes) : M E PdfData :=
  fun w =>
    let (c, e') := pdfParse env buf (ext w) in
    (c, after_pdf buf e' w).

(** [Tesseract.recognize(buf, lang, { logger: m => console.log(m) })]. *)
Definition call_recognize (buf : bytes) (lang : jsstring)
  : M E RecognizeResult :=
  fun w =>
    let '(progress, c, e') := recognize env buf lang (ext w) in
    (c, after_ocr buf lang progress e' w).

(** [genAI.getGenerativeModel({ model }).generateContent(prompt)]
    followed by [result.response.text()]. *)
Definition call_generateContent (model prompt : jsstring) : M E jsstring :=
  fun w =>
    let (c, e') := generateContent env model prompt (ext w) in
    (c, after_ai model prompt e' w).

(** [JSON.parse]: the value, or the SyntaxError. *)
Definition json_parse (s : jsstring) : completion json :=
  match JSON_parse s with
  | Some v => Normal v
  | None =>
      Throw {| err_name := lit "SyntaxError";
               message := syntaxErrorMessage env s |}
  end.

(** The TypeError thrown by reading [message] of [null] or [undefined]. *)
Definition type_error (n : nullish) : JsError :=
  {| err_name := lit "TypeError"; message := typeErrorMessage env n |}.

(** [x.message], as it is printed by [console.error] and by [+]: the
    message of an error object, the word [undefined] for a value without
    one, and a TypeError when [x] is [null] or [undefined]. *)
Definition read_message (x : thrown) : completion jsstring :=
  match x with
  | ErrorObject e => Normal (message e)
  | Messageless => Normal (lit "undefined")
  | Nullish n => Throw (type_error n)
  end.

(** *** [extractTextFromImage] *)

Definition extractTextFromImage (imageBuffer : bytes)
  : M E (option jsstring) :=
  try_catch
    (console_log (lit "Attempting OCR extraction...") ;;
     result <- call_recognize imageBuffer (lit "eng") ;;
     ret (data_text result))
    (fun error =>
       msg <- lift (read_message error) ;;
       console_error (lit "OCR Error: " ++ msg) ;;
       ret (Some [])).

(** *** [askGeminiForJSON] *)

(** A template literal, line by line: every line ends in a line feed. *)
Definition template (lines : list jsstring) : jsstring :=
  List.concat (map (fun l => l ++ nl) lines).

Definition jsonOnlyPrompt (prompt : jsstring) : jsstring :=
  template
    [ [];
      lit "You are an API. Return ONLY valid JSON.";
      lit "No markdown. No backticks. No extra explanation.";
      [];
      prompt ].

Definition model_name : jsstring := lit "gemini-2.5-flash".

(** The error thrown when the reply holds no brace pair. *)
Definition gemini_no_json : JsError :=
  {| err_name := lit "Error"; message := lit "Gemini did not return JSON." |}.

(** The [try { return JSON.parse(raw) } catch { ... }] that ends
    [askGeminiForJSON]: it touches nothing but [raw]. *)
Definition parse_reply (raw : jsstring) : completion json :=
  match json_parse raw with
  | Normal v => Normal v
  | Throw _ =>
      let first := indexOf raw (ch "{") in
      let last := lastIndexOf raw (ch "}") in
      if ((first =? -1) || (last =? -1))%Z then Throw gemini_no_json
      else
        let cleaned := slice raw first (last + 1) in
        json_parse cleaned
  end.

Definition askGeminiForJSON (prompt : jsstring) : M E json :=
  raw <- call_generateContent model_name (jsonOnlyPrompt prompt) ;;
  lift (parse_reply raw).

(** *** The handler of [POST /resume/upload] *)

Definition respond (code : Z) (b : json) : Response :=
  {| status := code; body := b |}.

Definition error_body (msg : jsstring) : json :=
  JObject [(lit "error", JString msg)].

Definition quoted (s : jsstring) : jsstring := [dquote] ++ s ++ [dquote].

Definition analysis_prompt (targetRole resumeText : jsstring) : jsstring :=
  template
    [ [];
      lit "Analyze this resume for the target role: " ++ quoted targetRole;
      [];
      lit "Return JSON in EXACT shape:";
      lit "{";
      lit "  " ++ quoted (lit "atsScore") ++ lit ": number (0-100),";
      lit "  " ++ quoted (lit "strengths") ++ lit ": [" ++ quoted (lit "...") ++ lit "],";
      lit "  " ++ quoted (lit "weakAreas") ++ lit ": [" ++ quoted (lit "...") ++ lit "],";
      lit "  " ++ quoted (lit "missingSkills") ++ lit ": [" ++ quoted (lit "...") ++ lit "],";
      lit "  " ++ quoted (lit "projectGaps") ++ lit ": [" ++ quoted (lit "...") ++ lit "],";
      lit "  " ++ quoted (lit "quickFixes") ++ lit ": [" ++ quoted (lit "...") ++ lit "],";
      lit "  " ++ quoted (lit "oneLineVerdict") ++ lit ": " ++ quoted (lit "...");
      lit "}";
      [];
      lit "Rules:";
      lit "- Be beginner-friendly.";
      lit "- Be realistic.";
      lit "- Mention projects/deployment/GitHub if missing.";
      [];
      lit "Resume Text:";
      [dquote; dquote; dquote];
      resumeText;
      [dquote; dquote; dquote] ].

Definition default_role : jsstring := lit "Software Developer (Fresher)".

Definition msg_no_file : jsstring := lit "File not uploaded".
Definition msg_no_text : jsstring :=
  lit "Could not extract text from PDF. Please upload a proper text-based resume.".
Definition msg_ocr_failed (detail : jsstring) : jsstring :=
  lit "OCR extraction failed: " ++ detail.
Definition msg_too_short : jsstring :=
  lit "Extracted text is too short. Please upload a valid resume PDF.".
Definition msg_ai_failed : jsstring :=
  lit "AI analysis failed. Please try again.".

(** The value given to [res.json] on success. *)
Definition success_body (targetRole fileName resumeText : jsstring)
           (analysis : json) : json :=
  JObject
    [ (lit "targetRole", JString targetRole);
      (lit "fileName", JString fileName);
      (lit "extractedChars",
       JNumber (num_of_Z (Z.of_nat (jslength resumeText))));
      (lit "analysis", analysis) ].

(** The first [try]: structured extraction.  [resumeText] stays empty
    when [pdfParse] throws. *)
Definition pdf_stage (f : File) : M E jsstring :=
  try_catch
    (pdfData <- call_pdfParse (buffer f) ;;
     let resumeText := trim (or_default (text pdfData) []) in
     console_log (lit "Extracted " ++ JsString.of_nat (jslength resumeText)
                      ++ lit " characters from PDF") ;;
     ret resumeText)
    (fun pdfError =>
       msg <- lift (read_message pdfError) ;;
       console_error (lit "PDF extraction failed: " ++ msg) ;;
       ret []).

(** The [if (!resumeText)] block: the OCR fallback.  [inl] is a
    [return res...] out of the handler, [inr] falls through with the
    text. *)
Definition ocr_stage (f : File) (resumeText : jsstring)
  : M E (Response + jsstring) :=
  if negb (truthy resumeText) then
    console_log (lit "PDF text empty. Attempting OCR...") ;;
    try_catch
      (ocrText <- extractTextFromImage (buffer f) ;;
       match ocrText with
       | None => ret (inl (respond 400 (error_body msg_no_text)))
       | Some t =>
           if negb (truthy t) || (jslength (trim t) =? 0)%nat then
             ret (inl (respond 400 (error_body msg_no_text)))
           else
             console_log (lit "OCR extracted " ++ JsString.of_nat (jslength t)
                              ++ lit " characters") ;;
             ret (inr t)
       end)
      (fun ocrError =>
         msg <- lift (read_message ocrError) ;;
         ret (inl (respond 400 (error_body (msg_ocr_failed msg)))))
  else ret (inr resumeText).

(** [res.json(v)] with a value that holds the decoded reply: the value is
    serialised before anything is sent, and [JSON.stringify] can throw on
    it.  (The error bodies are one string in one object, which always
    serialises; they are written with [respond].) *)
Definition res_json (code : Z) (v : json) : M E Response :=
  match stringifyThrows env v with
  | Some e => throw e
  | None => ret (respond code v)
  end.

(** From the length check to the response. *)
Definition analysis_stage (f : File) (targetRole resumeText : jsstring)
  : M E Response :=
  if negb (truthy resumeText) || (jslength (trim resumeText) <? 50)%nat then
    ret (respond 400 (error_body msg_too_short))
  else
    console_log (lit "Sending to Gemini for analysis...") ;;
    let prompt := analysis_prompt targetRole resumeText in
    try_catch
      (analysis <- askGeminiForJSON prompt ;;
       console_log (lit "Analysis complete!") ;;
       res_json 200
         (success_body targetRole (originalname f) resumeText analysis))
      (fun err =>
         msg <- lift (read_message err) ;;
         console_error (lit "Gemini Error: " ++ msg) ;;
         ret (respond 500 (error_body msg_ai_failed))).

Definition resume_upload (req : Request) : M E Response :=
  match file req with
  | None => ret (respond 400 (error_body msg_no_file))
  | Some f =>
      let targetRole := or_default (body_targetRole req) default_role in
      console_log (lit "Extracting text from PDF...") ;;
      resumeText <- pdf_stage f ;;
      r <- ocr_stage f resumeText ;;
      match r with
      | inl response => ret response
      | inr resumeText => analysis_stage f targetRole resumeText
      end
  end.

(** What the handler answers, and the world it leaves behind. *)
Definition response_to (req : Request) (w : World E) : completion Response :=
  fst (resume_upload req w).

Definition world_after (req : Request) (w : World E) : World E :=
  snd (resume_upload req w).

End WithEnv.

End Server.
Export Server.

(** ** Scripted services, for running the handler on concrete requests *)

Module Mock.

(** The engine's wording for reading [message] of [null] or [undefined]. *)
Definition cannot_read (n : nullish) : jsstring :=
  lit "Cannot read properties of "
  ++ match n with JsNull => lit "null" | JsUndefined => lit "undefined" end
  ++ lit " (reading 'message')".

(** An engine whose [JSON.stringify] overflows the stack on values nested
    deeper than 4999 levels. *)
Definition stack_overflow (v : json) : option JsError :=
  if (4999 <? depth v)%nat then
    Some {| err_name := lit "RangeError";
            message := lit "Maximum call stack size exceeded" |}
  else None.

(** Services that answer every call the same way and have no state. *)
Definition scripted (pdf : completion PdfData)
           (ocr : list jsstring * completion RecognizeResult)
           (ai : completion jsstring) : Env unit :=
  {| pdfParse := fun _ e => (pdf, e);
     recognize := fun _ _ e => (ocr, e);
     generateContent := fun _ _ e => (ai, e);
     syntaxErrorMessage := fun _ => lit "Unexpected token";
     typeErrorMessage := cannot_read;
     stringifyThrows := stack_overflow |}.

(** An AI client whose reply changes with every call: its hidden state
    counts the calls, and the reply is the count as a JSON number. *)
Definition counting (pdf : completion PdfData) : Env nat :=
  {| pdfParse := fun _ e => (pdf, e);
     recognize := fun _ _ e => (([], Normal {| data_text := Some [] |}), e);
     generateContent := fun _ _ e => (Normal (JsString.of_nat e), S e);
     syntaxErrorMessage := fun _ => lit "Unexpected token";
     typeErrorMessage := cannot_read;
     stringifyThrows := stack_overflow |}.

Definition fresh {E} (e : E) : World E :=
  {| ext := e; console := []; pdf_calls := []; ocr_calls := [];
     ai_calls := [] |}.

Definition an_error (msg : string) : JsError :=
  {| err_name := lit "Error"; message := lit msg |}.

Definition pdf_with (t : jsstring) : completion PdfData :=
  Normal {| text := Some t |}.

Definition ocr_with (t : jsstring) : list jsstring * completion RecognizeResult :=
  ([lit "recognizing text"], Normal {| data_text := Some t |}).

Definition ocr_unused : list jsstring * completion RecognizeResult :=
  ([], Throw (an_error "OCR must not run")).

Definition resume_pdf : File :=
  {| originalname := lit "resume.pdf";
     buffer := [x25; x50; x44; x46]%byte |}.

Definition upload (role : option jsstring) : Request :=
  {| file := Some resume_pdf; body_targetRole := role |}.

(** The reply [{"atsScore":10}]. *)
Definition reply_score10 : jsstring :=
  lit "{" ++ quoted (lit "atsScore") ++ lit ":10}".

Definition score10 : json :=
  JObject [(lit "atsScore", JNumber (num_of_Z 10))].

(** The reply of the example: two spaces, the object, then extra text. *)
Definition wrapped_reply : jsstring :=
  lit "  " ++ reply_score10 ++ lit "  extra text".

(** Texts of the witnesses: [n] letters between white space. *)
Definition padded (n : nat) : jsstring :=
  lit "  " ++ repeat1 (ch "A") n ++ [10%N].

(** The services of [env], except that pdf-parse finds no text where it
    would have answered, and leaves the same hidden state. *)
Definition without_pdf_text {E} (env : Env E) : Env E :=
  {| pdfParse := fun buf e => (Normal {| text := None |}, snd (pdfParse env buf e));
     recognize := recognize env;
     generateContent := generateContent env;
     syntaxErrorMessage := syntaxErrorMessage env;
     typeErrorMessage := typeErrorMessage env;
     stringifyThrows := stringifyThrows env |}.

(** A reply of [n] arrays, each inside the one before, and its value. *)
Definition nested_reply (n : nat) : jsstring :=
  repeat1 (ch "[") n ++ repeat1 (ch "]") n.


(** A reply wrapped in a Markdown code fence. *)
Definition fenced_reply : jsstring :=
  lit "```json" ++ nl ++ reply_score10 ++ nl ++ lit "```".

End Mock.

(** ** The paths through the handler *)

Module Paths.

Section WithEnv.

Variable E : Type.
Variable env : Env E.

(** The text the structured extractor leaves in [resumeText]. *)
Definition structured_text (c : completion PdfData) : jsstring :=
  match c with
  | Normal d => trim (or_default (text d) [])
  | Throw _ => []
  end.

(** A completion whose error, if there is one, has a [message] that a
    [catch] can read: it is not a rejection with [null] or [undefined]. *)
Definition loggable {A} (c : completion A) : Prop :=
  match c with
  | Throw (Nullish _) => False
  | _ => True
  end.

(** How [askGeminiForJSON] completes, from how the call to the AI
    client completed. *)
Definition reply_result (c : completion jsstring) : completion json :=
  match c with
  | Normal raw => parse_reply env raw
  | Throw e => Throw e
  end.

(** How the last [try] block completes: the decoded reply, unless the call,
    the decoding or the serialisation of the body by [res.json] threw. *)
Definition sent (role : jsstring) (f : File) (t : jsstring)
           (c : completion jsstring) : completion json :=
  match reply_result c with
  | Normal analysis =>
      match stringifyThrows env
              (success_body role (originalname f) t analysis) with
      | Some e => Throw e
      | None => Normal analysis
      end
  | Throw x => Throw x
  end.

(** What the last [try ... catch] of the handler leaves: 200 with the
    body, 500 when the block threw something whose message can be logged,
    and the TypeError of the [catch] itself otherwise. *)
Definition ai_response (role : jsstring) (f : File) (t : jsstring)
           (c : completion json) : completion Response :=
  match c with
  | Normal analysis =>
      Normal (respond 200 (success_body role (originalname f) t analysis))
  | Throw x =>
      match read_message env x with
      | Normal _ => Normal (respond 500 (error_body msg_ai_failed))
      | Throw y => Throw y
      end
  end.

(** What [extractTextFromImage] resolves to when it resolves: the engine's
    text, or the empty string after an engine error it could log. *)
Definition ocr_text (c : completion RecognizeResult) : option jsstring :=
  match c with
  | Normal r => data_text r
  | Throw _ => Some []
  end.

(** Where the text of a request came from. *)
Inductive source := Structured | Ocr.

(** How the extraction part of the handler ends. *)
Inductive Extraction :=
| PdfEscapes (n : nullish)
| OcrFailed (n : nullish)
| NoText
| Text (t : jsstring) (src : source).

(** The extraction part of the handler as a function of what the
    services answer: the text that reaches the length check, with its
    source, and the hidden state the services are left in.  A rejection of
    pdf-parse with [null] or [undefined] makes the first [catch] throw; the
    same rejection of the OCR engine makes the [catch] of
    [extractTextFromImage] throw, into the [catch] of the handler. *)
Definition extraction (f : File) (w : World E) : Extraction * E :=
  let (cpdf, e1) := pdfParse env (buffer f) (ext w) in
  match cpdf with
  | Throw (Nullish n) => (PdfEscapes n, e1)
  | _ =>
      if truthy (structured_text cpdf) then
        (Text (structured_text cpdf) Structured, e1)
      else
        let '(_, cocr, e2) := recognize env (buffer f) (lit "eng") e1 in
        match cocr with
        | Throw (Nullish n) => (OcrFailed n, e2)
        | _ =>
            match ocr_text cocr with
            | Some t =>
                if (jslength (trim t) =? 0)%nat then (NoText, e2)
                else (Text t Ocr, e2)
            | None => (NoText, e2)
            end
        end
  end.

(** The calls to the OCR engine that a source stands for. *)
Definition ocr_calls_of (f : File) (src : source)
  : list (bytes * jsstring) :=
  match src with
  | Structured => []
  | Ocr => [(buffer f, lit "eng")]
  end.

(** The ways through the handler, with what it answers or throws and what
    each leaves in the world. *)
Variant Path (req : Request) (w : World E)
  : completion Response -> World E -> Prop :=
| path_missing_file :
    file req = None ->
    Path req w (Normal (respond 400 (error_body msg_no_file))) w
| path_pdf_escapes f n e w' :
    file req = Some f ->
    extraction f w = (PdfEscapes n, e) ->
    ocr_calls w' = ocr_calls w ->
    ai_calls w' = ai_calls w ->
    Path req w (Throw (type_error env n)) w'
| path_ocr_failed f n e w' :
    file req = Some f ->
    extraction f w = (OcrFailed n, e) ->
    ocr_calls w' = ocr_calls w ++ [(buffer f, lit "eng")] ->
    ai_calls w' = ai_calls w ->
    Path req w
         (Normal (respond 400
                    (error_body (msg_ocr_failed (typeErrorMessage env n)))))
         w'
| path_no_text f e w' :
    file req = Some f ->
    extraction f w = (NoText, e) ->
    ocr_calls w' = ocr_calls w ++ [(buffer f, lit "eng")] ->
    ai_calls w' = ai_calls w ->
    Path req w (Normal (respond 400 (error_body msg_no_text))) w'
| path_too_short f t src e w' :
    file req = Some f ->
    extraction f w = (Text t src, e) ->
    (jslength (trim t) < 50)%nat ->
    ocr_calls w' = ocr_calls w ++ ocr_calls_of f src ->
    ai_calls w' = ai_calls w ->
    Path req w (Normal (respond 400 (error_body msg_too_short))) w'
| path_ai f t src e c e' w' r :
    file req = Some f ->
    extraction f w = (Text t src, e) ->
    (50 <= jslength (trim t))%nat ->
    let role := or_default (body_targetRole req) default_role in
    let prompt := jsonOnlyPrompt (analysis_prompt role t) in
    generateContent env model_name prompt e = (c, e') ->
    r = ai_response role f t (sent role f t c) ->
    ocr_calls w' = ocr_calls w ++ ocr_calls_of f src ->
    ai_calls w' = ai_calls w ++ [(model_name, prompt)] ->
    Path req w r w'.

(** An error answer: a response with the given status whose body is the
    object with the one member [error], holding the message. *)
Definition error_answer (c : completion Response) (code : Z)
           (msg : jsstring) : Prop :=
  exists r,
    c = Normal r
    /\ status r = code
    /\ body r = JObject [(lit "error", JString msg)].

(** *** Computations whose result does not depend on the world *)

Definition oblivious {A} (m : M E A) : Prop :=
  forall w1 w2, fst (m w1) = fst (m w2).

(** Services whose answer is a function of the question alone. *)
Definition deterministic : Prop :=
  (forall buf e e', fst (pdfParse env buf e) = fst (pdfParse env buf e'))
  /\ (forall buf lang e e',
         snd (fst (recognize env buf lang e))
         = snd (fst (recognize env buf lang e')))
  /\ (forall model prompt e e',
         fst (generateContent env model prompt e)
         = fst (generateContent env model prompt e')).

End WithEnv.

End Paths.
Export Paths.

(** * Properties *)

(** ** Trimming *)

Module TrimFacts.

Lemma trimStart_clean (s : jsstring) : starts_clean (trimStart s).
Proof.
  induction s as [|c r IH]; simpl; [exact I|].
  destruct (is_white c) eqn:Hc; [exact IH | exact Hc].
Qed.

Lemma trimStart_id (s : jsstring) : starts_clean s -> trimStart s = s.
Proof.
  destruct s as [|c r]; simpl; [reflexivity|].
  intros ->. reflexivity.
Qed.

(** [trimStart] only removes a prefix. *)
Lemma trimStart_suffix (s : jsstring) :
  exists ws, s = ws ++ trimStart s.
Proof.
  induction s as [|c r [ws IH]]; simpl.
  - exists []. reflexivity.
  - destruct (is_white c).
    + exists (c :: ws). simpl. now rewrite <- IH.
    + exists []. reflexivity.
Qed.

(** [trimEnd] only removes a suffix. *)
Lemma trimEnd_prefix (s : jsstring) :
  exists ws, s = trimEnd s ++ ws.
Proof.
  unfold trimEnd.
  destruct (trimStart_suffix (rev s)) as [ws H].
  exists (rev ws).
  rewrite <- rev_app_distr, <- H. now rewrite rev_involutive.
Qed.

Lemma trimEnd_keeps_clean (s : jsstring) :
  starts_clean s -> starts_clean (trimEnd s).
Proof.
  intros Hs. destruct (trimEnd_prefix s) as [ws H].
  destruct (trimEnd s) as [|c r]; [exact I|].
  rewrite H in Hs. exact Hs.
Qed.

Lemma trimEnd_id (s : jsstring) : starts_clean (rev s) -> trimEnd s = s.
Proof.
  intros H. unfold trimEnd. rewrite (trimStart_id _ H).
  apply rev_involutive.
Qed.

Lemma trim_starts_clean (s : jsstring) : starts_clean (trim s).
Proof. apply trimEnd_keeps_clean, trimStart_clean. Qed.

Lemma trim_ends_clean (s : jsstring) : starts_clean (rev (trim s)).
Proof.
  unfold trim, trimEnd. rewrite rev_involutive. apply trimStart_clean.
Qed.

(** Trimming twice is trimming once. *)
Lemma trim_idempotent (s : jsstring) : trim (trim s) = trim s.
Proof.
  unfold trim at 1.
  rewrite (trimStart_id _ (trim_starts_clean s)).
  apply trimEnd_id, trim_ends_clean.
Qed.

Lemma trimStart_length (s : jsstring) :
  (jslength (trimStart s) <= jslength s)%nat.
Proof.
  destruct (trimStart_suffix s) as [ws H].
  rewrite H at 2. unfold jslength. rewrite length_app. lia.
Qed.

(** Trimming never makes a string longer. *)
Lemma trim_length (s : jsstring) : (jslength (trim s) <= jslength s)%nat.
Proof.
  unfold trim.
  destruct (trimEnd_prefix (trimStart s)) as [ws H].
  pose proof (trimStart_length s) as L.
  rewrite H in L. unfold jslength in *. rewrite length_app in L. lia.
Qed.

Lemma truthy_nonempty (s : jsstring) : truthy s = true <-> s <> [].
Proof. destruct s; simpl; split; congruence. Qed.

Lemma truthy_empty (s : jsstring) : truthy s = false <-> s = [].
Proof. destruct s; simpl; split; congruence. Qed.

End TrimFacts.

(** ** Searching and slicing *)

Module IndexFacts.

Lemma indexOf_range (s : jsstring) (c : char16) :
  (-1 <= indexOf s c < Z.of_nat (List.length s))%Z.
Proof.
  induction s as [|x r IH]; simpl List.length; simpl indexOf; [lia|].
  destruct (x =? c)%N; [lia|].
  destruct (indexOf r c <? 0)%Z eqn:H; lia.
Qed.

Lemma lastIndexOf_range (s : jsstring) (c : char16) :
  (-1 <= lastIndexOf s c < Z.of_nat (List.length s))%Z.
Proof.
  induction s as [|x r IH]; simpl List.length; simpl lastIndexOf; [lia|].
  destruct (0 <=? lastIndexOf r c)%Z eqn:H; [lia|].
  destruct (x =? c)%N; lia.
Qed.

(** [indexOf] answers -1 exactly when the unit does not occur. *)
Lemma indexOf_absent (s : jsstring) (c : char16) :
  indexOf s c = (-1)%Z <-> ~ In c s.
Proof.
  induction s as [|x r IH]; simpl; [tauto|].
  pose proof (indexOf_range r c) as R.
  destruct (x =? c)%N eqn:Hx.
  - apply N.eqb_eq in Hx. split; [lia | intros H; exfalso; apply H; auto].
  - apply N.eqb_neq in Hx.
    destruct (indexOf r c <? 0)%Z eqn:Hi.
    + apply Z.ltb_lt in Hi. assert (indexOf r c = (-1)%Z) as Hm by lia.
      split; [|reflexivity]. intros _ [H|H]; [congruence|].
      apply IH in Hm. contradiction.
    + apply Z.ltb_ge in Hi. split; [lia|].
      intros H. exfalso.
      assert (~ In c r) as Hr by (intros Hin; apply H; auto).
      apply IH in Hr. lia.
Qed.

Lemma lastIndexOf_absent (s : jsstring) (c : char16) :
  lastIndexOf s c = (-1)%Z <-> ~ In c s.
Proof.
  induction s as [|x r IH]; simpl; [tauto|].
  pose proof (lastIndexOf_range r c) as R.
  destruct (0 <=? lastIndexOf r c)%Z eqn:Hi.
  - apply Z.leb_le in Hi. split; [lia|].
    intros H. exfalso.
    assert (~ In c r) as Hr by (intros Hin; apply H; auto).
    apply IH in Hr. lia.
  - apply Z.leb_gt in Hi. assert (lastIndexOf r c = (-1)%Z) as Hm by lia.
    apply IH in Hm.
    destruct (x =? c)%N eqn:Hx.
    + apply N.eqb_eq in Hx. split; [lia | intros H; exfalso; apply H; auto].
    + apply N.eqb_neq in Hx. split; [|reflexivity].
      intros _ [H|H]; [congruence | contradiction].
Qed.

(** A found index is the first position that holds the unit. *)
Lemma indexOf_first (s : jsstring) (c : char16) (i : nat) :
  indexOf s c = Z.of_nat i ->
  nth_error s i = Some c /\
  forall j, (j < i)%nat -> nth_error s j <> Some c.
Proof.
  revert i. induction s as [|x r IH]; simpl; intros i H; [lia|].
  pose proof (indexOf_range r c) as R.
  destruct (x =? c)%N eqn:Hx.
  - apply N.eqb_eq in Hx. assert (i = 0%nat) by lia. subst.
    split; [reflexivity | intros j Hj; lia].
  - apply N.eqb_neq in Hx.
    destruct (indexOf r c <? 0)%Z eqn:Hi; [lia|].
    apply Z.ltb_ge in Hi.
    destruct i as [|i]; [lia|].
    destruct (IH i) as [Hn Hb]; [lia|].
    split; [exact Hn|].
    intros [|j] Hj; simpl; [congruence | apply Hb; lia].
Qed.

(** A found last index is the last position that holds the unit. *)
Lemma lastIndexOf_last (s : jsstring) (c : char16) (i : nat) :
  lastIndexOf s c = Z.of_nat i ->
  nth_error s i = Some c /\
  forall j, (i < j)%nat -> nth_error s j <> Some c.
Proof.
  revert i. induction s as [|x r IH]; simpl; intros i H; [lia|].
  pose proof (lastIndexOf_range r c) as R.
  destruct (0 <=? lastIndexOf r c)%Z eqn:Hi.
  - apply Z.leb_le in Hi.
    destruct i as [|i]; [lia|].
    destruct (IH i) as [Hn Hb]; [lia|].
    split; [exact Hn|].
    intros [|j] Hj; [lia | simpl; apply Hb; lia].
  - apply Z.leb_gt in Hi.
    assert (lastIndexOf r c = (-1)%Z) as Hm by lia.
    apply lastIndexOf_absent in Hm.
    destruct (x =? c)%N eqn:Hx; [|lia].
    apply N.eqb_eq in Hx. assert (i = 0%nat) by lia. subst.
    split; [reflexivity|].
    intros [|j] Hj; [lia|]. simpl. intros Hn.
    apply nth_error_In in Hn. contradiction.
Qed.

(** With both bounds inside the string, [slice] is the units at positions
    [a] to [b - 1]. *)
Lemma slice_inside (s : jsstring) (a b : nat) :
  (a <= List.length s)%nat -> (b <= List.length s)%nat ->
  slice s (Z.of_nat a) (Z.of_nat b) = firstn (b - a) (skipn a s).
Proof.
  intros Ha Hb. unfold slice.
  replace (Z.of_nat a <? 0)%Z with false by (symmetry; apply Z.ltb_ge; lia).
  replace (Z.of_nat b <? 0)%Z with false by (symmetry; apply Z.ltb_ge; lia).
  rewrite !Z.min_l by lia.
  rewrite Nat2Z.id. f_equal. lia.
Qed.

Lemma slice_nth (s : jsstring) (a b i : nat) :
  (a <= List.length s)%nat -> (b <= List.length s)%nat ->
  (i < b - a)%nat ->
  nth_error (slice s (Z.of_nat a) (Z.of_nat b)) i = nth_error s (a + i).
Proof.
  intros Ha Hb Hi. rewrite slice_inside by assumption.
  rewrite nth_error_firstn.
  replace (i <? b - a)%nat with true by (symmetry; apply Nat.ltb_lt; lia).
  apply nth_error_skipn.
Qed.

Lemma slice_length (s : jsstring) (a b : nat) :
  (a <= List.length s)%nat -> (b <= List.length s)%nat ->
  List.length (slice s (Z.of_nat a) (Z.of_nat b)) = (b - a)%nat.
Proof.
  intros Ha Hb. rewrite slice_inside by assumption.
  rewrite length_firstn, length_skipn. lia.
Qed.

End IndexFacts.

(** ** Numbers *)

Module NumberFacts.

Lemma strip10_value (fuel : nat) (m e : Z) :
  (0 <= e)%Z -> num_to_Z (strip10 fuel m e) = Some (m * 10 ^ e)%Z.
Proof.
  revert m e. induction fuel as [|f IH]; intros m e He; simpl.
  - unfold num_to_Z; simpl.
    replace (0 <=? e)%Z with true by (symmetry; apply Z.leb_le; lia).
    reflexivity.
  - destruct (m mod 10 =? 0)%Z eqn:Hm.
    + apply Z.eqb_eq in Hm. rewrite IH by lia. f_equal.
      replace (e + 1)%Z with (Z.succ e) by lia.
      rewrite Z.pow_succ_r by lia.
      rewrite (Z.div_mod m 10) at 2 by lia. rewrite Hm. ring.
    + unfold num_to_Z; simpl.
      replace (0 <=? e)%Z with true by (symmetry; apply Z.leb_le; lia).
      reflexivity.
Qed.

(** The number made from an integer stands for that integer. *)
Lemma num_of_Z_value (z : Z) : num_to_Z (num_of_Z z) = Some z.
Proof.
  unfold num_of_Z, mk_number.
  destruct (z =? 0)%Z eqn:Hz.
  - apply Z.eqb_eq in Hz. subst. reflexivity.
  - rewrite strip10_value by lia. f_equal. simpl. lia.
Qed.

Lemma num_of_Z_inj (a b : Z) : num_of_Z a = num_of_Z b -> a = b.
Proof.
  intros H. pose proof (num_of_Z_value a) as Ha.
  rewrite H, num_of_Z_value in Ha. congruence.
Qed.

End NumberFacts.

(** ** The JSON parser never runs out of fuel *)

Module ParserFacts.

Lemma skip_ws_length (s : jsstring) :
  (List.length (skip_ws s) <= List.length s)%nat.
Proof.
  induction s as [|c r IH]; simpl; [lia|].
  destruct (json_ws c); simpl; lia.
Qed.

Lemma skip_ws_cons (s : jsstring) (c : char16) (r : jsstring) :
  skip_ws s = c :: r -> (List.length r < List.length s)%nat.
Proof.
  intros H. pose proof (skip_ws_length s) as L. rewrite H in L.
  simpl in L. lia.
Qed.

(** A string literal consumes at least its closing quote. *)
Lemma parse_chars_length (n : nat) :
  forall s acc str r,
    (List.length s <= n)%nat ->
    parse_chars s acc = Some (str, r) ->
    (List.length r < List.length s)%nat.
Proof.
  induction n as [|n IH]; intros s acc str r Hn H.
  - destruct s; [discriminate H | simpl in Hn; lia].
  - destruct s as [|c s1]; [discriminate H|].
    simpl in H, Hn.
    destruct (c =? dquote)%N.
    { injection H as _ <-. simpl. lia. }
    destruct (c =? 92)%N.
    + destruct s1 as [|e s2]; [discriminate H|].
      destruct (e =? 117)%N.
      * destruct s2 as [|h1 [|h2 [|h3 [|h4 s3]]]]; try discriminate H.
        destruct (hex4 h1 h2 h3 h4); [|discriminate H].
        apply IH in H; simpl in *; lia.
      * destruct (unescape e); [|discriminate H].
        apply IH in H; simpl in *; lia.
    + destruct (c <? 32)%N; [discriminate H|].
      apply IH in H; simpl in *; lia.
Qed.

Lemma span_digits_length (s : jsstring) :
  (List.length (snd (span_digits s)) <= List.length s)%nat.
Proof.
  induction s as [|c r IH]; simpl; [lia|].
  destruct (is_digit c); simpl; [|lia].
  destruct (span_digits r); simpl in *. lia.
Qed.

Lemma parse_int_length (s : jsstring) (ds : list Z) (r : jsstring) :
  parse_int s = Some (ds, r) -> (List.length r < List.length s)%nat.
Proof.
  destruct s as [|c s1]; [discriminate|]. unfold parse_int.
  destruct (c =? 48)%N.
  { intros H. injection H as _ <-. simpl. lia. }
  destruct (is_digit c) eqn:Hd; [|discriminate].
  intros H. injection H as H.
  simpl in H. rewrite Hd in H.
  pose proof (span_digits_length s1) as L.
  destruct (span_digits s1) as [ds1 r1]. injection H as _ <-.
  simpl in *. lia.
Qed.

Lemma parse_frac_length (s : jsstring) (ds : list Z) (r : jsstring) :
  parse_frac s = Some (ds, r) -> (List.length r <= List.length s)%nat.
Proof.
  destruct s as [|c s1]; simpl.
  { intros H. injection H as _ <-. simpl. lia. }
  destruct (c =? 46)%N.
  - pose proof (span_digits_length s1) as L.
    destruct (span_digits s1) as [[|d ds1] r1]; [discriminate|].
    intros H. injection H as _ <-. simpl in *. lia.
  - intros H. injection H as _ <-. simpl. lia.
Qed.

Lemma parse_exp_length (s : jsstring) (e : Z) (r : jsstring) :
  parse_exp s = Some (e, r) -> (List.length r <= List.length s)%nat.
Proof.
  destruct s as [|c s1]; simpl.
  { intros H. injection H as _ <-. simpl. lia. }
  destruct ((c =? 101) || (c =? 69))%N.
  - destruct s1 as [|sg s2].
    + simpl. discriminate.
    + destruct (sg =? 45)%N.
      * pose proof (span_digits_length s2) as L.
        destruct (span_digits s2) as [[|d ds1] r1]; [discriminate|].
        intros H. injection H as _ <-. simpl in *. lia.
      * destruct (sg =? 43)%N.
        -- pose proof (span_digits_length s2) as L.
           destruct (span_digits s2) as [[|d ds1] r1]; [discriminate|].
           intros H. injection H as _ <-. simpl in *. lia.
        -- pose proof (span_digits_length (sg :: s2)) as L.
           destruct (span_digits (sg :: s2)) as [[|d ds1] r1]; [discriminate|].
           intros H. injection H as _ <-. simpl in *. lia.
  - intros H. injection H as _ <-. simpl. lia.
Qed.

Lemma parse_number_length (s : jsstring) (n : number) (r : jsstring) :
  parse_number s = Some (n, r) -> (List.length r < List.length s)%nat.
Proof.
  unfold parse_number.
  set (p := match s with
            | c :: r0 => if (c =? 45)%N then (true, r0) else (false, s)
            | [] => (false, s)
            end).
  assert (Hp : (List.length (snd p) <= List.length s)%nat).
  { subst p. destruct s as [|c r0]; simpl; [lia|].
    destruct (c =? 45)%N; simpl; lia. }
  destruct p as [neg s1]. simpl in Hp.
  destruct (parse_int s1) as [[ip s2]|] eqn:Hi; [|discriminate].
  destruct (parse_frac s2) as [[fp s3]|] eqn:Hf; [|discriminate].
  destruct (parse_exp s3) as [[e s4]|] eqn:He; [|discriminate].
  intros H. injection H as _ <-.
  apply parse_int_length in Hi. apply parse_frac_length in Hf.
  apply parse_exp_length in He. lia.
Qed.

Lemma strip_prefix_length (p s r : jsstring) :
  strip_prefix p s = Some r ->
  (List.length r + List.length p = List.length s)%nat.
Proof.
  revert s. induction p as [|x p IH]; intros s H; simpl in *.
  - injection H as <-. lia.
  - destruct s as [|y s']; [discriminate|].
    destruct (x =? y)%N; [|discriminate].
    apply IH in H. simpl. lia.
Qed.

Lemma parse_elements_fuel (pv : jsstring -> presult json) (N : nat) :
  productive pv N ->
  forall k s acc,
    (List.length s < N)%nat -> (List.length s < k)%nat ->
    parse_elements pv k s acc <> PFuel
    /\ forall l r, parse_elements pv k s acc = POk l r ->
                   (List.length r < List.length s)%nat.
Proof.
  intros Hpv. induction k as [|k IH]; intros s acc HN Hk; [lia|].
  simpl. destruct (Hpv s HN) as [Hnf Hlen].
  destruct (pv s) as [v r| |]; [|split; [discriminate | intros ? ? H; discriminate H] | congruence].
  specialize (Hlen v r eq_refl).
  destruct (skip_ws r) as [|c r'] eqn:Hs; [split; [discriminate | intros ? ? H; discriminate H]|].
  apply skip_ws_cons in Hs.
  destruct (c =? 44)%N.
  - destruct (IH r' (acc ++ [v])) as [H1 H2]; [lia | lia |].
    split; [exact H1|]. intros l r0 H. apply H2 in H. lia.
  - destruct (c =? 93)%N.
    + split; [discriminate|]. intros l r0 H. injection H as _ <-. lia.
    + split; [discriminate | intros ? ? H; discriminate H].
Qed.

Lemma parse_members_fuel (pv : jsstring -> presult json) (N : nat) :
  productive pv N ->
  forall k s acc,
    (List.length s < N)%nat -> (List.length s < k)%nat ->
    parse_members pv k s acc <> PFuel
    /\ forall m r, parse_members pv k s acc = POk m r ->
                   (List.length r < List.length s)%nat.
Proof.
  intros Hpv. induction k as [|k IH]; intros s acc HN Hk; [lia|].
  simpl.
  destruct (skip_ws s) as [|q r] eqn:Hs;
    [split; [discriminate | intros ? ? H; discriminate H]|].
  apply skip_ws_cons in Hs.
  destruct (q =? dquote)%N;
    [|split; [discriminate | intros ? ? H; discriminate H]].
  destruct (parse_chars r []) as [[key r1]|] eqn:Hkey;
    [|split; [discriminate | intros ? ? H; discriminate H]].
  apply parse_chars_length with (n := List.length r) in Hkey; [|lia].
  destruct (skip_ws r1) as [|colon r2] eqn:Hs1;
    [split; [discriminate | intros ? ? H; discriminate H]|].
  apply skip_ws_cons in Hs1.
  destruct (colon =? 58)%N;
    [|split; [discriminate | intros ? ? H; discriminate H]].
  destruct (Hpv r2) as [Hnf Hlen]; [lia|].
  destruct (pv r2) as [v r3| |];
    [|split; [discriminate | intros ? ? H; discriminate H] | congruence].
  specialize (Hlen v r3 eq_refl).
  destruct (skip_ws r3) as [|c r4] eqn:Hs3;
    [split; [discriminate | intros ? ? H; discriminate H]|].
  apply skip_ws_cons in Hs3.
  destruct (c =? 44)%N.
  - destruct (IH r4 (obj_set key v acc)) as [H1 H2]; [lia | lia |].
    split; [exact H1|]. intros m r0 H. apply H2 in H. lia.
  - destruct (c =? 125)%N.
    + split; [discriminate|]. intros m r0 H. injection H as _ <-. lia.
    + split; [discriminate | intros ? ? H; discriminate H].
Qed.

Lemma lift_option_productive {A} (o : option (A * jsstring)) (f : A -> json)
      (s : jsstring) :
  (forall a r, o = Some (a, r) -> (List.length r < List.length s)%nat) ->
  lift_option o f <> PFuel
  /\ forall v r, lift_option o f = POk v r ->
                 (List.length r < List.length s)%nat.
Proof.
  intros Ho. destruct o as [[a r]|]; simpl.
  - split; [discriminate|]. intros v r0 H. injection H as _ <-.
    apply (Ho a r eq_refl).
  - split; [discriminate | intros ? ? H; discriminate H].
Qed.

(** With more fuel than the text has units, the parser never runs out of
    fuel, and a parsed value has consumed at least one unit. *)
Lemma parse_value_fuel (n : nat) : productive (parse_value n) n.
Proof.
  induction n as [|n IH]; intros s Hn; [lia|].
  cbn [parse_value].
  destruct (skip_ws s) as [|c r] eqn:Hs;
    [split; [discriminate | intros ? ? H; discriminate H]|].
  pose proof (skip_ws_length s) as Hws. rewrite Hs in Hws. simpl in Hws.
  destruct (c =? 123)%N.
  { destruct (skip_ws r) as [|c' r'] eqn:Hs';
      [split; [discriminate | intros ? ? H; discriminate H]|].
    apply skip_ws_cons in Hs'.
    destruct (c' =? 125)%N.
    - split; [discriminate|]. intros v r0 H. injection H as _ <-. lia.
    - destruct (@parse_members_fuel _ _ IH n r []) as [H1 H2]; [lia | lia |].
      destruct (parse_members (parse_value n) n r []) as [m rest| |];
        [|split; [discriminate | intros ? ? H; discriminate H] | congruence].
      split; [discriminate|]. intros v r0 H. injection H as _ <-.
      specialize (H2 m rest eq_refl). lia. }
  destruct (c =? 91)%N.
  { destruct (skip_ws r) as [|c' r'] eqn:Hs';
      [split; [discriminate | intros ? ? H; discriminate H]|].
    apply skip_ws_cons in Hs'.
    destruct (c' =? 93)%N.
    - split; [discriminate|]. intros v r0 H. injection H as _ <-. lia.
    - destruct (@parse_elements_fuel _ _ IH n r []) as [H1 H2]; [lia | lia |].
      destruct (parse_elements (parse_value n) n r []) as [l rest| |];
        [|split; [discriminate | intros ? ? H; discriminate H] | congruence].
      split; [discriminate|]. intros v r0 H. injection H as _ <-.
      specialize (H2 l rest eq_refl). lia. }
  destruct (c =? dquote)%N.
  { apply lift_option_productive. intros a r0 H.
    apply parse_chars_length with (n := List.length r) in H; lia. }
  destruct (c =? 116)%N.
  { apply lift_option_productive. intros a r0 H.
    destruct (strip_prefix (lit "true") (c :: r)) as [r1|] eqn:Hp;
      [|discriminate H].
    cbn [option_map] in H. injection H as _ <-.
    apply strip_prefix_length in Hp. simpl in Hp. lia. }
  destruct (c =? 102)%N.
  { apply lift_option_productive. intros a r0 H.
    destruct (strip_prefix (lit "false") (c :: r)) as [r1|] eqn:Hp;
      [|discriminate H].
    cbn [option_map] in H. injection H as _ <-.
    apply strip_prefix_length in Hp. simpl in Hp. lia. }
  destruct (c =? 110)%N.
  { apply lift_option_productive. intros a r0 H.
    destruct (strip_prefix (lit "null") (c :: r)) as [r1|] eqn:Hp;
      [|discriminate H].
    cbn [option_map] in H. injection H as _ <-.
    apply strip_prefix_length in Hp. simpl in Hp. lia. }
  destruct ((c =? 45) || is_digit c)%N.
  { apply lift_option_productive. intros a r0 H.
    apply parse_number_length in H. simpl in H. lia. }
  split; [discriminate | intros ? ? H; discriminate H].
Qed.

(** [JSON_parse] never fails for want of fuel. *)
Lemma JSON_parse_fuel (s : jsstring) :
  parse_value (S (List.length s)) s <> PFuel.
Proof. apply (@parse_value_fuel (S (List.length s)) s). lia. Qed.

End ParserFacts.

(** ** Runs of the handler *)

Module Runs.

Import TrimFacts.

(** What the decoder throws is an error object, never [null] or
    [undefined]. *)
Lemma parse_reply_error {E} (env : Env E) (raw : jsstring) (x : thrown) :
  parse_reply env raw = Throw x -> exists e : JsError, x = e.
Proof.
  unfold parse_reply, json_parse.
  destruct (JSON_parse raw); [discriminate|].
  destruct ((indexOf raw (ch "{") =? -1) || (lastIndexOf raw (ch "}") =? -1))%Z.
  - intros H. injection H as <-. eexists. reflexivity.
  - destruct (JSON_parse _); [discriminate|].
    intros H. injection H as <-. eexists. reflexivity.
Qed.

(** Symbolic execution: unfold the monad, then split on what the services
    answer and on every test the handler makes. *)
Ltac unfold_run :=
  unfold resume_upload, pdf_stage, ocr_stage, analysis_stage,
    extractTextFromImage, askGeminiForJSON, res_json,
    call_pdfParse, call_recognize, call_generateContent,
    console_log, console_error, emit, lift, bind, try_catch, ret, throw.

Ltac proj :=
  cbn [fst snd ext console pdf_calls ocr_calls ai_calls
       logged after_pdf after_ocr after_ai
       file body_targetRole buffer originalname status body
       text data_text truthy negb read_message] in *.

Ltac split_run :=
  repeat (proj;
    match goal with
    | |- context [pdfParse ?en ?b ?e] =>
        let H := fresh "Hpdf" in
        destruct (pdfParse en b e) as [[?|?] ?] eqn:H
    | |- context [recognize ?en ?b ?l ?e] =>
        let H := fresh "Hocr" in
        destruct (recognize en b l e) as [[? [[[?|]]|?]] ?] eqn:H
    | |- context [generateContent ?en ?m ?p ?e] =>
        let H := fresh "Hai" in
        destruct (generateContent en m p e) as [[?|?] ?] eqn:H
    | |- context [parse_reply ?en ?raw] =>
        let H := fresh "Hreply" in
        let x := fresh "x" in
        destruct (parse_reply en raw) as [?|x] eqn:H;
        [|let H' := fresh in
          destruct (parse_reply_error _ _ H) as [? H']; subst x]
    | |- context [stringifyThrows ?en ?v] =>
        let H := fresh "Hser" in
        destruct (stringifyThrows en v) eqn:H
    | |- context [read_message ?en ?x] =>
        is_var x; destruct x as [?|?|]
    | |- context [if ?b then _ else _] =>
        lazymatch b with
        | context [if _ then _ else _] => fail
        | _ => let H := fresh "Htest" in destruct b eqn:H
        end
    end);
  proj.

(** Evaluate [extraction] with the answers of the services and the
    outcomes of the tests that are among the hypotheses. *)
Ltac use_answers :=
  repeat first
    [ match goal with
      | H : pdfParse _ _ _ = _ |- _ => rewrite H
      | H : recognize _ _ _ _ = _ |- _ => rewrite H
      | H : ?b = true |- context [if ?b then _ else _] => rewrite H
      | H : ?b = false |- context [if ?b then _ else _] => rewrite H
      end
    | progress cbn [fst snd text data_text truthy negb read_message] ].

(** Turn the handler's boolean tests into facts. *)
Ltac tests :=
  repeat match goal with
    | H : _ || _ = true |- _ => apply orb_true_iff in H
    | H : _ || _ = false |- _ => apply orb_false_iff in H; destruct H
    | H : negb _ = true |- _ => apply negb_true_iff in H
    | H : negb _ = false |- _ => apply negb_false_iff in H
    | H : (_ <? _)%nat = true |- _ => apply Nat.ltb_lt in H
    | H : (_ <? _)%nat = false |- _ => apply Nat.ltb_ge in H
    | H : (_ =? _)%nat = true |- _ => apply Nat.eqb_eq in H
    | H : (_ =? _)%nat = false |- _ => apply Nat.eqb_neq in H
    end.

Section WithEnv.

Variable E : Type.
Variable env : Env E.

Lemma too_short_test (t : jsstring) :
  negb (truthy t) || (jslength (trim t) <? 50)%nat
  = (jslength (trim t) <? 50)%nat.
Proof. destruct t; reflexivity. Qed.

Lemma no_text_test (t : jsstring) :
  negb (truthy t) || (jslength (trim t) =? 0)%nat
  = (jslength (trim t) =? 0)%nat.
Proof. destruct t; reflexivity. Qed.

Ltac solve_extraction :=
  unfold extraction; use_answers;
  cbn [structured_text ocr_text]; use_answers; reflexivity.

(** The handler ends along one of the paths. *)
Lemma resume_upload_inv (req : Request) (w : World E) :
  exists res w', resume_upload env req w = (res, w') /\ Path env req w res w'.
Proof.
  unfold_run. destruct req as [[f|] role]; proj.
  2:{ do 2 eexists. split; [reflexivity|]. now constructor. }
  split_run.
  all: do 2 eexists; (split; [reflexivity|]).
  all: rewrite ?too_short_test, ?no_text_test in *.
  all: repeat match goal with
         | H : negb _ = true |- _ => apply negb_true_iff in H
         | H : negb _ = false |- _ => apply negb_false_iff in H
         end.
  all: try discriminate.
  all: lazymatch goal with
       | |- Path _ _ _ (Normal (respond 400 (error_body msg_no_text))) _ =>
           eapply path_no_text;
           [ reflexivity | solve_extraction
           | proj; reflexivity | proj; reflexivity ]
       | |- Path _ _ _ (Normal (respond 400 (error_body msg_too_short))) _ =>
           eapply path_too_short;
           [ reflexivity | solve_extraction | tests; eassumption
           | proj; rewrite ?app_nil_r; reflexivity | proj; reflexivity ]
       | |- Path _ _ _ (Normal (respond 400 _)) _ =>
           eapply path_ocr_failed;
           [ reflexivity | solve_extraction
           | proj; reflexivity | proj; reflexivity ]
       | |- _ =>
           first
             [ eapply path_pdf_escapes;
               [ reflexivity | solve_extraction
               | proj; reflexivity | proj; reflexivity ]
             | eapply path_ai;
               [ reflexivity | solve_extraction | tests; eassumption
               | eassumption
               | unfold ai_response, sent, reply_result; proj;
                 repeat match goal with
                        | H : parse_reply _ _ = _ |- _ => rewrite H
                        | H : stringifyThrows _ _ = _ |- _ => rewrite H
                        end;
                 cbn [read_message]; reflexivity
               | proj; rewrite ?app_nil_r; reflexivity
               | proj; reflexivity ] ]
       end.
Qed.

(** The result of the extraction fixes the path the handler takes. *)
Lemma run_by_extraction (f : File) (role : option jsstring) (w : World E)
      (x : Extraction) (e : E) :
  extraction env f w = (x, e) ->
  exists res w',
    resume_upload env {| file := Some f; body_targetRole := role |} w
    = (res, w')
    /\ match x with
       | PdfEscapes n =>
           res = Throw (type_error env n)
           /\ ocr_calls w' = ocr_calls w
           /\ ai_calls w' = ai_calls w
       | OcrFailed n =>
           res = Normal (respond 400
                           (error_body
                              (msg_ocr_failed (typeErrorMessage env n))))
           /\ ocr_calls w' = ocr_calls w ++ [(buffer f, lit "eng")]
           /\ ai_calls w' = ai_calls w
       | NoText =>
           res = Normal (respond 400 (error_body msg_no_text))
           /\ ocr_calls w' = ocr_calls w ++ [(buffer f, lit "eng")]
           /\ ai_calls w' = ai_calls w
       | Text t src =>
           ocr_calls w' = ocr_calls w ++ ocr_calls_of f src
           /\ (((jslength (trim t) < 50)%nat
                /\ res = Normal (respond 400 (error_body msg_too_short))
                /\ ai_calls w' = ai_calls w)
               \/ ((50 <= jslength (trim t))%nat
                   /\ exists c e',
                       generateContent env model_name
                         (jsonOnlyPrompt
                            (analysis_prompt (or_default role default_role) t))
                         e
                       = (c, e')
                       /\ res = ai_response env (or_default role default_role)
                                            f t
                                            (sent env
                                                  (or_default role default_role)
                                                  f t c)
                       /\ ai_calls w'
                          = ai_calls w
                              ++ [(model_name,
                                   jsonOnlyPrompt
                                     (analysis_prompt
                                        (or_default role default_role) t))]))
       end.
Proof.
  intros Hx.
  destruct (resume_upload_inv {| file := Some f; body_targetRole := role |} w)
    as (r & w' & Hrun & P).
  exists r, w'. split; [exact Hrun|].
  destruct P as [Hf
                | f' n e0 w' Hf Hx' Hocr Hai
                | f' n e0 w' Hf Hx' Hocr Hai
                | f' e0 w' Hf Hx' Hocr Hai
                | f' t src e0 w' Hf Hx' Hlen Hocr Hai
                | f' t src e0 c e' w' r Hf Hx' Hlen role' prompt Hgen Hr
                    Hocr Hai];
    cbn [file body_targetRole] in *; try discriminate Hf;
    injection Hf as <-; rewrite Hx in Hx'; injection Hx' as -> ->.
  - auto.
  - auto.
  - auto.
  - split; [exact Hocr|]. left. auto.
  - split; [exact Hocr|]. right. split; [exact Hlen|].
    exists c, e'. auto.
Qed.

(** Text from the structured extractor is used trimmed. *)
Lemma extraction_structured (f : File) (w : World E) (d : PdfData) (e1 : E) :
  pdfParse env (buffer f) (ext w) = (Normal d, e1) ->
  trim (or_default (text d) []) <> [] ->
  extraction env f w = (Text (trim (or_default (text d) [])) Structured, e1).
Proof.
  intros Hpdf Hne. apply truthy_nonempty in Hne.
  unfold extraction. rewrite Hpdf. cbn [structured_text]. rewrite Hne.
  reflexivity.
Qed.

(** Text from the OCR engine is used as the engine gave it. *)
Lemma extraction_ocr (f : File) (w : World E) (cpdf : completion PdfData)
      (e1 e2 : E) (progress : list jsstring) (t : jsstring) :
  pdfParse env (buffer f) (ext w) = (cpdf, e1) ->
  loggable cpdf ->
  structured_text cpdf = [] ->
  recognize env (buffer f) (lit "eng") e1
  = (progress, Normal {| data_text := Some t |}, e2) ->
  trim t <> [] ->
  extraction env f w = (Text t Ocr, e2).
Proof.
  intros Hpdf Hlog Ht Hocr Hne.
  assert (Hz : (jslength (trim t) =? 0)%nat = false).
  { apply Nat.eqb_neq. intros H0. apply Hne.
    destruct (trim t); [reflexivity | discriminate H0]. }
  unfold extraction. rewrite Hpdf.
  destruct cpdf as [d|[perr|n|]]; cbn [structured_text loggable] in *;
    try contradiction; rewrite ?Ht; cbn [truthy]; rewrite Hocr;
    cbn [ocr_text data_text]; rewrite Hz; reflexivity.
Qed.

(** *** The OCR helper *)

(** [extractTextFromImage] calls the engine once.  It resolves to the
    engine's text, or to the empty string after an engine error; only a
    rejection with [null] or [undefined] makes it throw, the TypeError of
    its own [catch]. *)
Lemma extractTextFromImage_run (buf : bytes) (w : World E) :
  exists w',
    extractTextFromImage env buf w
    = (match snd (fst (recognize env buf (lit "eng") (ext w))) with
       | Throw (Nullish n) => Throw (type_error env n)
       | c => Normal (ocr_text c)
       end,
       w')
    /\ ocr_calls w' = ocr_calls w ++ [(buf, lit "eng")]
    /\ ai_calls w' = ai_calls w.
Proof.
  unfold_run. proj.
  destruct (recognize env buf (lit "eng") (ext w))
    as [[progress [r|[err|n|]]] e'];
    proj; eexists; repeat split; reflexivity.
Qed.

(** When the structured text is empty and the engine throws an error
    with a message, the handler answers with the no-text message: its own
    [catch] for OCR errors is not entered. *)
Lemma ocr_error_swallowed (f : File) (role : option jsstring)
      (w : World E) (cpdf : completion PdfData) (e1 e2 : E)
      (progress : list jsstring) (x : thrown) :
  pdfParse env (buffer f) (ext w) = (cpdf, e1) ->
  loggable cpdf ->
  structured_text cpdf = [] ->
  recognize env (buffer f) (lit "eng") e1 = (progress, Throw x, e2) ->
  loggable (Throw (A := RecognizeResult) x) ->
  fst (resume_upload env {| file := Some f; body_targetRole := role |} w)
  = Normal (respond 400 (error_body msg_no_text)).
Proof.
  intros Hpdf Hlog Ht Hocr Hlog'. unfold_run. proj. rewrite Hpdf.
  destruct cpdf as [d|[perr|n|]]; cbn [structured_text loggable] in *; proj;
    try contradiction; rewrite ?Ht; proj; rewrite Hocr;
    destruct x as [err|n|]; cbn [loggable] in *; try contradiction;
    reflexivity.
Qed.

(** An error of the OCR engine that has a message, after an empty
    structured text, is an extraction without text. *)
Lemma extraction_ocr_error (f : File) (w : World E)
      (cpdf : completion PdfData) (e1 e2 : E)
      (progress : list jsstring) (x : thrown) :
  pdfParse env (buffer f) (ext w) = (cpdf, e1) ->
  loggable cpdf ->
  structured_text cpdf = [] ->
  recognize env (buffer f) (lit "eng") e1 = (progress, Throw x, e2) ->
  loggable (Throw (A := RecognizeResult) x) ->
  extraction env f w = (NoText, e2).
Proof.
  intros Hpdf Hlog Ht Hocr Hlog'. unfold extraction. rewrite Hpdf.
  destruct cpdf as [d|[perr|n|]]; cbn [structured_text loggable] in *;
    try contradiction; rewrite ?Ht; cbn [truthy]; rewrite Hocr;
    destruct x as [err|n|]; cbn [loggable] in *; try contradiction;
    reflexivity.
Qed.

(** *** The response does not depend on the world *)

Lemma oblivious_ret {A} (a : A) : oblivious (E := E) (ret a).
Proof. intros w1 w2. reflexivity. Qed.

Lemma oblivious_lift {A} (c : completion A) : oblivious (E := E) (lift c).
Proof. intros w1 w2. reflexivity. Qed.

Lemma oblivious_emit (st : stream) (lines : list jsstring) :
  oblivious (E := E) (emit st lines).
Proof. intros w1 w2. reflexivity. Qed.

Lemma oblivious_throw {A} (x : thrown) : oblivious (E := E) (A := A) (throw x).
Proof. intros w1 w2. reflexivity. Qed.

Lemma oblivious_bind {A B} (m : M E A) (k : A -> M E B) :
  oblivious m -> (forall a, oblivious (k a)) -> oblivious (bind m k).
Proof.
  intros Hm Hk w1 w2. unfold bind.
  specialize (Hm w1 w2).
  destruct (m w1) as [[a1|x1] u1], (m w2) as [[a2|x2] u2];
    cbn [fst] in Hm; try discriminate; inversion Hm; subst.
  - apply Hk.
  - reflexivity.
Qed.

Lemma oblivious_try_catch {A} (m : M E A) (h : thrown -> M E A) :
  oblivious m -> (forall e, oblivious (h e)) -> oblivious (try_catch m h).
Proof.
  intros Hm Hh w1 w2. unfold try_catch.
  specialize (Hm w1 w2).
  destruct (m w1) as [[a1|x1] u1], (m w2) as [[a2|x2] u2];
    cbn [fst] in Hm; try discriminate; inversion Hm; subst.
  - reflexivity.
  - apply Hh.
Qed.

Hypothesis Hdet : deterministic env.

Lemma oblivious_pdfParse (buf : bytes) : oblivious (call_pdfParse env buf).
Proof.
  intros w1 w2. unfold call_pdfParse.
  pose proof (proj1 Hdet buf (ext w1) (ext w2)) as H.
  destruct (pdfParse env buf (ext w1)), (pdfParse env buf (ext w2)).
  exact H.
Qed.

Lemma oblivious_recognize (buf : bytes) (lang : jsstring) :
  oblivious (call_recognize env buf lang).
Proof.
  intros w1 w2. unfold call_recognize.
  pose proof (proj1 (proj2 Hdet) buf lang (ext w1) (ext w2)) as H.
  destruct (recognize env buf lang (ext w1)) as [[? ?] ?],
           (recognize env buf lang (ext w2)) as [[? ?] ?].
  exact H.
Qed.

Lemma oblivious_generateContent (model prompt : jsstring) :
  oblivious (call_generateContent env model prompt).
Proof.
  intros w1 w2. unfold call_generateContent.
  pose proof (proj2 (proj2 Hdet) model prompt (ext w1) (ext w2)) as H.
  destruct (generateContent env model prompt (ext w1)),
           (generateContent env model prompt (ext w2)).
  exact H.
Qed.

Lemma resume_upload_oblivious (req : Request) :
  oblivious (resume_upload env req).
Proof.
  unfold resume_upload, pdf_stage, ocr_stage, analysis_stage,
    extractTextFromImage, askGeminiForJSON, res_json,
    console_log, console_error.
  destruct (file req) as [f|]; [|apply oblivious_ret].
  repeat first
    [ apply oblivious_ret
    | apply oblivious_throw
    | apply oblivious_lift
    | apply oblivious_emit
    | apply oblivious_pdfParse
    | apply oblivious_recognize
    | apply oblivious_generateContent
    | apply oblivious_bind; [|intros ?]
    | apply oblivious_try_catch; [|intros ?]
    | match goal with
      | |- oblivious (if ?b then _ else _) => destruct b
      | |- oblivious (match ?x with _ => _ end) => destruct x
      end ].
Qed.

End WithEnv.

End Runs.

(** ** The prompt *)

Module PromptFacts.

Lemma startsWith_app (p b : jsstring) : startsWith (p ++ b) p = true.
Proof.
  induction p as [|x p IH]; [destruct b; reflexivity|].
  cbn [app startsWith]. rewrite N.eqb_refl. exact IH.
Qed.

Lemma includes_here (p b : jsstring) : includes (p ++ b) p = true.
Proof.
  pose proof (startsWith_app p b) as H.
  destruct (p ++ b) as [|x r]; cbn [includes]; [exact H|].
  rewrite H. reflexivity.
Qed.

Lemma includes_later (a r p : jsstring) :
  includes r p = true -> includes (a ++ r) p = true.
Proof.
  intros H. induction a as [|x a IH]; [exact H|].
  cbn [app includes]. rewrite IH. apply orb_true_r.
Qed.

(** The wrapper of [askGeminiForJSON] keeps prompts apart. *)
Lemma jsonOnlyPrompt_inj (p q : jsstring) :
  jsonOnlyPrompt p = jsonOnlyPrompt q -> p = q.
Proof.
  unfold jsonOnlyPrompt, template. cbn [map List.concat].
  intros H. repeat apply app_inv_head in H.
  apply app_inv_tail in H. apply app_inv_tail in H. exact H.
Qed.

(** The request holds the role between double quotes. *)
Lemma prompt_includes_role (role t : jsstring) :
  includes (jsonOnlyPrompt (analysis_prompt role t)) (quoted role) = true.
Proof.
  unfold jsonOnlyPrompt, analysis_prompt, template. cbn [map List.concat].
  repeat rewrite <- app_assoc.
  repeat (apply includes_here || apply includes_later).
Qed.

(** The request holds the text as it is. *)
Lemma prompt_includes_text (role t : jsstring) :
  includes (jsonOnlyPrompt (analysis_prompt role t)) t = true.
Proof.
  unfold jsonOnlyPrompt, analysis_prompt, template. cbn [map List.concat].
  repeat rewrite <- app_assoc.
  repeat (apply includes_here || apply includes_later).
Qed.

(** For one role, different texts give different requests. *)
Lemma prompt_text_inj (role t t' : jsstring) :
  jsonOnlyPrompt (analysis_prompt role t)
  = jsonOnlyPrompt (analysis_prompt role t') ->
  t = t'.
Proof.
  intros H. apply jsonOnlyPrompt_inj in H.
  unfold analysis_prompt, template in H. cbn [map List.concat] in H.
  repeat rewrite <- app_assoc in H.
  repeat apply app_inv_head in H.
  apply app_inv_tail in H. exact H.
Qed.

End PromptFacts.

(** * The specification, claim by claim *)

Import TrimFacts IndexFacts NumberFacts Runs PromptFacts.

(** C1.  When the structured extractor yields text that is not empty after
    trimming (in particular text of 50 or more trimmed characters), the
    handler makes no call to the OCR engine; when it yields text that is
    empty or only white space, the handler calls the OCR engine exactly
    once, on the uploaded buffer. *)
Theorem C1_ocr_runs_only_as_fallback
        (E : Type) (env : Env E) (f : File) (role : option jsstring)
        (w : World E) (d : PdfData) (e1 : E) :
  pdfParse env (buffer f) (ext w) = (Normal d, e1) ->
  (trim (or_default (text d) []) <> [] ->
   ocr_calls (world_after env {| file := Some f; body_targetRole := role |} w)
   = ocr_calls w)
  /\ ((50 <= jslength (trim (or_default (text d) [])))%nat ->
      ocr_calls (world_after env {| file := Some f; body_targetRole := role |} w)
      = ocr_calls w)
  /\ (trim (or_default (text d) []) = [] ->
      ocr_calls (world_after env {| file := Some f; body_targetRole := role |} w)
      = ocr_calls w ++ [(buffer f, lit "eng")]).
Proof.
  intros Hpdf.
  assert (Hfull : trim (or_default (text d) []) <> [] ->
                  ocr_calls (world_after env
                               {| file := Some f; body_targetRole := role |} w)
                  = ocr_calls w).
  { intros Ht. apply truthy_nonempty in Ht.
    unfold world_after. unfold_run. proj. rewrite Hpdf. proj. rewrite Ht.
    cbn [negb]. split_run; reflexivity. }
  split; [exact Hfull|]. split.
  - intros Hlen. apply Hfull. intros Ht. rewrite Ht in Hlen.
    cbn in Hlen. lia.
  - intros Ht. unfold world_after. unfold_run. proj. rewrite Hpdf. proj.
    rewrite Ht. cbn [truthy negb]. split_run; reflexivity.
Qed.

Lemma C1_witness :
  ocr_calls (world_after
               (Mock.scripted (Mock.pdf_with (repeat1 (ch "A") 200))
                              Mock.ocr_unused (Normal Mock.reply_score10))
               (Mock.upload None) (Mock.fresh tt)) = []
  /\ ocr_calls (world_after
                  (Mock.scripted (Mock.pdf_with (lit "   "))
                                 (Mock.ocr_with []) (Normal Mock.reply_score10))
                  (Mock.upload None) (Mock.fresh tt))
     = [(buffer Mock.resume_pdf, lit "eng")].
Proof.
  split.
  - apply (proj1 (C1_ocr_runs_only_as_fallback
                    (Mock.scripted (Mock.pdf_with (repeat1 (ch "A") 200))
                                   Mock.ocr_unused (Normal Mock.reply_score10))
                    Mock.resume_pdf None (Mock.fresh tt) eq_refl)).
    vm_compute. discriminate.
  - apply (proj2 (proj2 (C1_ocr_runs_only_as_fallback
                    (Mock.scripted (Mock.pdf_with (lit "   "))
                                   (Mock.ocr_with []) (Normal Mock.reply_score10))
                    Mock.resume_pdf None (Mock.fresh tt) eq_refl))).
    vm_compute. reflexivity.
Defined.

(** C2, at an upload on which the structured text is empty and the OCR
    engine throws an error whose message is "boom": the handler answers 400
    with the no-text message, and that message does not include "boom";
    the answer written in the handler's own [catch (ocrError)] is not
    given.  The error is only written to the console, by the [catch] of
    [extractTextFromImage]. *)
Theorem C2_ocr_error_answered_as_no_text :
  response_to
    (Mock.scripted (Mock.pdf_with []) ([], Throw (Mock.an_error "boom"))
                   (Normal Mock.reply_score10))
    (Mock.upload None) (Mock.fresh tt)
  = Normal (respond 400 (error_body msg_no_text))
  /\ includes msg_no_text (lit "boom") = false
  /\ error_body msg_no_text <> error_body (msg_ocr_failed (lit "boom"))
  /\ last (console
             (world_after
                (Mock.scripted (Mock.pdf_with [])
                               ([], Throw (Mock.an_error "boom"))
                               (Normal Mock.reply_score10))
                (Mock.upload None) (Mock.fresh tt)))
          (Stdout, [])
     = (Stderr, lit "OCR Error: boom").
Proof.
  split; [vm_compute; reflexivity|].
  split; [vm_compute; reflexivity|].
  split; [vm_compute; discriminate|].
  vm_compute. reflexivity.
Qed.

(** C3, as amended.  [askGeminiForJSON] completes as [parse_reply] does on
    the raw reply.  [parse_reply] first tries [JSON.parse] on the whole
    reply and returns its value.  When that fails and the reply holds a
    left brace and a right brace, it parses the units from the first left
    brace to the last right brace, both included.  On the wrapped reply of
    the example it returns the object with [atsScore] 10.  When the strict
    parse fails and the reply has no left brace or no right brace, it throws
    the error "Gemini did not return JSON.". *)
Theorem C3_reply_decoder (E : Type) (env : Env E) (raw : jsstring) :
  (forall prompt w e',
      generateContent env model_name (jsonOnlyPrompt prompt) (ext w)
      = (Normal raw, e') ->
      fst (askGeminiForJSON env prompt w) = parse_reply env raw)
  /\ (forall v, JSON_parse raw = Some v -> parse_reply env raw = Normal v)
  /\ (JSON_parse raw = None ->
      forall first last : nat,
        indexOf raw (ch "{") = Z.of_nat first ->
        lastIndexOf raw (ch "}") = Z.of_nat last ->
        let cleaned := slice raw (Z.of_nat first) (Z.of_nat last + 1) in
        parse_reply env raw = json_parse env cleaned
        /\ nth_error raw first = Some (ch "{")
        /\ (forall j, (j < first)%nat -> nth_error raw j <> Some (ch "{"))
        /\ nth_error raw last = Some (ch "}")
        /\ (forall j, (last < j)%nat -> nth_error raw j <> Some (ch "}"))
        /\ List.length cleaned = (last + 1 - first)%nat
        /\ (forall i, (i < last + 1 - first)%nat ->
                      nth_error cleaned i = nth_error raw (first + i)))
  /\ parse_reply env Mock.wrapped_reply = Normal Mock.score10
  /\ (JSON_parse raw = None ->
      ~ In (ch "{") raw \/ ~ In (ch "}") raw ->
      parse_reply env raw = Throw gemini_no_json).
Proof.
  split; [|split; [|split; [|split]]].
  - intros prompt w e' Hai. unfold askGeminiForJSON, bind, lift,
      call_generateContent. rewrite Hai. reflexivity.
  - intros v Hv. unfold parse_reply, json_parse. rewrite Hv. reflexivity.
  - intros Hstrict first last Hf Hl cleaned.
    pose proof (indexOf_range raw (ch "{")) as Rf.
    pose proof (lastIndexOf_range raw (ch "}")) as Rl.
    destruct (indexOf_first _ _ _ Hf) as [Hf1 Hf2].
    destruct (lastIndexOf_last _ _ _ Hl) as [Hl1 Hl2].
    split; [|split; [|split; [|split; [|split; [|split]]]]];
      try assumption.
    + unfold parse_reply. unfold json_parse at 1. rewrite Hstrict.
      rewrite Hf, Hl.
      replace (Z.of_nat first =? -1)%Z with false
        by (symmetry; apply Z.eqb_neq; lia).
      replace (Z.of_nat last =? -1)%Z with false
        by (symmetry; apply Z.eqb_neq; lia).
      reflexivity.
    + subst cleaned.
      replace (Z.of_nat last + 1)%Z with (Z.of_nat (last + 1)) by lia.
      apply slice_length; lia.
    + intros i Hi. subst cleaned.
      replace (Z.of_nat last + 1)%Z with (Z.of_nat (last + 1)) by lia.
      apply slice_nth; lia.
  - vm_compute. reflexivity.
  - intros Hstrict Hno. unfold parse_reply, json_parse. rewrite Hstrict.
    destruct Hno as [Hno|Hno].
    + apply indexOf_absent in Hno. rewrite Hno. reflexivity.
    + apply lastIndexOf_absent in Hno. rewrite Hno.
      rewrite orb_true_r. reflexivity.
Qed.

Lemma C3_witness :
  parse_reply (Mock.scripted (Mock.pdf_with []) Mock.ocr_unused (Normal []))
              (lit "[1]")
  = Normal (JArray [JNumber (num_of_Z 1)])
  /\ parse_reply (Mock.scripted (Mock.pdf_with []) Mock.ocr_unused (Normal []))
                 Mock.wrapped_reply
     = json_parse (Mock.scripted (Mock.pdf_with []) Mock.ocr_unused (Normal []))
                  (slice Mock.wrapped_reply 2 (16 + 1))
  /\ parse_reply (Mock.scripted (Mock.pdf_with []) Mock.ocr_unused (Normal []))
                 (lit "Sorry, I cannot help with that.")
     = Throw gemini_no_json.
Proof.
  split; [|split].
  - apply (proj1 (proj2 (C3_reply_decoder
             (Mock.scripted (Mock.pdf_with []) Mock.ocr_unused (Normal []))
             (lit "[1]")))).
    vm_compute. reflexivity.
  - apply (proj1 (proj2 (proj2 (C3_reply_decoder
             (Mock.scripted (Mock.pdf_with []) Mock.ocr_unused (Normal []))
             Mock.wrapped_reply))) eq_refl 2%nat 16%nat eq_refl eq_refl).
  - apply (proj2 (proj2 (proj2 (proj2 (C3_reply_decoder
             (Mock.scripted (Mock.pdf_with []) Mock.ocr_unused (Normal []))
             (lit "Sorry, I cannot help with that.")))))).
    + vm_compute. reflexivity.
    + left. vm_compute. intuition discriminate.
Defined.

(** C3 as first stated fails: the reply [[]] has no left brace, its strict
    parse succeeds, and the decoder returns the empty array instead of
    failing. *)
Lemma C3_counterexample :
  ~ In (ch "{") (lit "[]")
  /\ fst (askGeminiForJSON
            (Mock.scripted (Mock.pdf_with []) Mock.ocr_unused (Normal (lit "[]")))
            (lit "any prompt") (Mock.fresh tt))
     = Normal (JArray []).
Proof.
  split.
  - vm_compute. intuition discriminate.
  - vm_compute. reflexivity.
Qed.



(** ** What the bodies hold *)

Lemma success_body_keys (role fn t : jsstring) (a : json) :
  keys (success_body role fn t a)
  = [lit "targetRole"; lit "fileName"; lit "extractedChars"; lit "analysis"].
Proof. reflexivity. Qed.

Lemma success_body_targetRole (role fn t : jsstring) (a : json) :
  field (lit "targetRole") (success_body role fn t a) = Some (JString role).
Proof. reflexivity. Qed.

Lemma success_body_fileName (role fn t : jsstring) (a : json) :
  field (lit "fileName") (success_body role fn t a) = Some (JString fn).
Proof. reflexivity. Qed.

Lemma success_body_extractedChars (role fn t : jsstring) (a : json) :
  field (lit "extractedChars") (success_body role fn t a)
  = Some (JNumber (num_of_Z (Z.of_nat (jslength t)))).
Proof. reflexivity. Qed.

Lemma success_body_analysis (role fn t : jsstring) (a : json) :
  field (lit "analysis") (success_body role fn t a) = Some a.
Proof. reflexivity. Qed.

(** [extractedChars] of a success body is the number of UTF-16 units of
    the text. *)
Lemma success_body_counts (role fn t : jsstring) (a : json) :
  exists n,
    field (lit "extractedChars") (success_body role fn t a) = Some (JNumber n)
    /\ num_to_Z n = Some (Z.of_nat (jslength t)).
Proof.
  exists (num_of_Z (Z.of_nat (jslength t))).
  split; [reflexivity | apply num_of_Z_value].
Qed.

(** An error body is the object with the one member [error]. *)
Lemma error_answer_intro (code : Z) (msg : jsstring) :
  error_answer (Normal (respond code (error_body msg))) code msg.
Proof. eexists. repeat split. Qed.

(** Open a run of the handler into its path. *)
Ltac open_run env req w :=
  let r := fresh "r" in
  let w' := fresh "w'" in
  let Hrun := fresh "Hrun" in
  let P := fresh "P" in
  destruct (resume_upload_inv env req w) as (r & w' & Hrun & P);
  unfold response_to, world_after in *;
  rewrite Hrun in *; cbn [fst snd] in *.

(** Split a run into the ways through the handler. *)
Ltac paths P :=
  destruct P as [Hf
                | f' n e w' Hf Hx Hocr Hai
                | f' n e w' Hf Hx Hocr Hai
                | f' e w' Hf Hx Hocr Hai
                | f' t src e w' Hf Hx Hlen Hocr Hai
                | f' t src e c e' w' r' Hf Hx Hlen role' prompt Hgen Hr' Hocr Hai].

(** C5.  Whenever the handler calls the AI client, and so whenever it
    answers 200, the text it extracted is not empty and has at least 50
    characters after trimming; that text is the one in the prompt, and the
    [extractedChars] of a 200 answer is its length, at least 50. *)
Theorem C5_text_for_analysis_is_long
        (E : Type) (env : Env E) (req : Request) (w : World E) (r : Response) :
  response_to env req w = Normal r ->
  ai_calls (world_after env req w) <> ai_calls w \/ status r = 200%Z ->
  exists f t src e,
    file req = Some f
    /\ extraction env f w = (Text t src, e)
    /\ t <> []
    /\ (50 <= jslength (trim t))%nat
    /\ ai_calls (world_after env req w)
       = ai_calls w
           ++ [(model_name,
                jsonOnlyPrompt
                  (analysis_prompt
                     (or_default (body_targetRole req) default_role) t))]
    /\ (status r = 200%Z ->
        exists n z,
          field (lit "extractedChars") (body r) = Some (JNumber n)
          /\ num_to_Z n = Some z
          /\ z = Z.of_nat (jslength t)
          /\ (50 <= z)%Z).
Proof.
  intros Hr Hreach. open_run env req w.
  paths P; try discriminate Hr; try (injection Hr as <-).
  - destruct Hreach as [H|H]; [congruence | discriminate H].
  - destruct Hreach as [H|H]; [congruence | discriminate H].
  - destruct Hreach as [H|H]; [congruence | discriminate H].
  - destruct Hreach as [H|H]; [congruence | discriminate H].
  - exists f', t, src, e.
    pose proof (trim_length t) as Hle.
    repeat split; try assumption.
    + intros ->. cbn in Hlen. lia.
    + intros H200. rewrite Hr in Hr'. unfold ai_response in Hr'.
      destruct (sent env role' f' t c) as [a|x].
      * injection Hr' as ->.
        exists (num_of_Z (Z.of_nat (jslength t))), (Z.of_nat (jslength t)).
        repeat split; [apply num_of_Z_value | lia].
      * destruct (read_message env x); [|discriminate Hr'].
        injection Hr' as ->. discriminate H200.
Qed.

Lemma C5_witness :
  exists n z,
    field (lit "extractedChars")
          (body (respond 200
                   (success_body default_role (lit "resume.pdf")
                                 (repeat1 (ch "A") 200) Mock.score10)))
    = Some (JNumber n)
    /\ num_to_Z n = Some z /\ (50 <= z)%Z.
Proof.
  destruct (C5_text_for_analysis_is_long
              (Mock.scripted (Mock.pdf_with (repeat1 (ch "A") 200))
                             Mock.ocr_unused (Normal Mock.reply_score10))
              (Mock.upload None) (Mock.fresh tt)
              (r := respond 200
                      (success_body default_role (lit "resume.pdf")
                                    (repeat1 (ch "A") 200) Mock.score10))
              eq_refl (or_intror eq_refl))
    as (f & t & src & e & _ & _ & _ & _ & _ & H).
  destruct (H eq_refl) as (n & z & Hn & Hz & _ & Hge).
  exists n, z. repeat split; assumption.
Defined.

(** ** What the last [try] leaves *)


(** Only the AI client can make the block throw [null] or [undefined]. *)
Lemma sent_nullish {E} (env : Env E) (role : jsstring) (f : File)
      (t : jsstring) (c : completion jsstring) (n : nullish) :
  sent env role f t c = Throw (Nullish n) -> c = Throw (Nullish n).
Proof.
  unfold sent, reply_result. destruct c as [raw|x].
  - destruct (parse_reply env raw) as [a|x] eqn:Hp.
    + destruct (stringifyThrows env _); discriminate.
    + destruct (parse_reply_error _ _ Hp) as [err ->]. discriminate.
  - intros H. injection H as ->. reflexivity.
Qed.

(** C6.  Every run of the handler ends in one of these ways.
    No file: 400 with "File not uploaded".  pdf-parse rejected with [null]
    or [undefined]: the TypeError of the first [catch] leaves the handler.
    The OCR engine rejected with [null] or [undefined]: 400 with "OCR
    extraction failed: " and the TypeError's message.  No text from either
    extractor: 400 with the no-text message.  Text shorter than 50 trimmed
    characters: 400 with the too-short message.  In these five the AI client
    is not called.  Otherwise the AI client is called once; when the call,
    the decoding of the reply or [res.json] throws an error, the answer is
    500 with the one fixed body, whatever the error was, and when the client
    rejected with [null] or [undefined] the TypeError of the last [catch]
    leaves the handler.  The five messages are pairwise different.  An
    error of the OCR engine that has a message does not get the message of
    an OCR failure: the answer is the one for no text. *)
Theorem C6_failure_statuses
        (E : Type) (env : Env E) (req : Request) (w : World E) :
  ((file req = None
    /\ error_answer (response_to env req w) 400 msg_no_file
    /\ ai_calls (world_after env req w) = ai_calls w)
   \/ (exists f n e,
          file req = Some f
          /\ extraction env f w = (PdfEscapes n, e)
          /\ response_to env req w = Throw (type_error env n)
          /\ ai_calls (world_after env req w) = ai_calls w)
   \/ (exists f n e,
          file req = Some f
          /\ extraction env f w = (OcrFailed n, e)
          /\ error_answer (response_to env req w) 400
                          (lit "OCR extraction failed: "
                           ++ typeErrorMessage env n)
          /\ ai_calls (world_after env req w) = ai_calls w)
   \/ (exists f e,
          file req = Some f
          /\ extraction env f w = (NoText, e)
          /\ error_answer (response_to env req w) 400 msg_no_text
          /\ ai_calls (world_after env req w) = ai_calls w)
   \/ (exists f t src e,
          file req = Some f
          /\ extraction env f w = (Text t src, e)
          /\ (jslength (trim t) < 50)%nat
          /\ error_answer (response_to env req w) 400 msg_too_short
          /\ ai_calls (world_after env req w) = ai_calls w)
   \/ (exists f t src e c e',
          file req = Some f
          /\ extraction env f w = (Text t src, e)
          /\ (50 <= jslength (trim t))%nat
          /\ generateContent env model_name
               (jsonOnlyPrompt
                  (analysis_prompt
                     (or_default (body_targetRole req) default_role) t))
               e
             = (c, e')
          /\ ai_calls (world_after env req w)
             = ai_calls w
                 ++ [(model_name,
                      jsonOnlyPrompt
                        (analysis_prompt
                           (or_default (body_targetRole req) default_role) t))]
          /\ match sent env (or_default (body_targetRole req) default_role)
                        f t c with
             | Normal analysis =>
                 response_to env req w
                 = Normal (respond 200
                             (success_body
                                (or_default (body_targetRole req) default_role)
                                (originalname f) t analysis))
             | Throw (Nullish n) =>
                 c = Throw (Nullish n)
                 /\ response_to env req w = Throw (type_error env n)
             | Throw _ =>
                 error_answer (response_to env req w) 500
                              (lit "AI analysis failed. Please try again.")
             end))
  /\ (forall detail,
         NoDup [msg_no_file; msg_no_text; msg_too_short; msg_ai_failed;
                lit "OCR extraction failed: " ++ detail])
  /\ (forall f role cpdf e1 progress x e2,
         req = {| file := Some f; body_targetRole := role |} ->
         pdfParse env (buffer f) (ext w) = (cpdf, e1) ->
         loggable cpdf ->
         structured_text cpdf = [] ->
         recognize env (buffer f) (lit "eng") e1 = (progress, Throw x, e2) ->
         loggable (Throw (A := RecognizeResult) x) ->
         error_answer (response_to env req w) 400
           (lit "Could not extract text from PDF. Please upload a proper text-based resume.")).
Proof.
  split; [|split].
  - open_run env req w. paths P.
    + left. repeat split; [assumption | apply error_answer_intro].
    + right; left. exists f', n, e. auto.
    + right; right; left. exists f', n, e.
      repeat split; try assumption. apply error_answer_intro.
    + right; right; right; left. exists f', e.
      repeat split; try assumption. apply error_answer_intro.
    + right; right; right; right; left. exists f', t, src, e.
      repeat split; try assumption. apply error_answer_intro.
    + right; right; right; right; right. exists f', t, src, e, c, e'.
      repeat (split; [assumption|]).
      subst role' prompt r'. unfold ai_response.
      destruct (sent env _ f' t c) as [a|[err|n|]] eqn:Hs;
        cbn [read_message].
      * reflexivity.
      * apply error_answer_intro.
      * split; [exact (sent_nullish _ _ _ _ _ Hs) | reflexivity].
      * apply error_answer_intro.
  - intros detail.
    repeat constructor; cbn [In]; vm_compute; intuition discriminate.
  - intros f role cpdf e1 progress x e2 -> Hpdf Hlog Ht Hocr Hlog'.
    unfold response_to.
    rewrite (ocr_error_swallowed env f role w Hpdf Hlog Ht Hocr Hlog').
    apply error_answer_intro.
Qed.

Lemma C6_witness :
  error_answer
    (response_to
       (Mock.scripted (Mock.pdf_with []) ([], Throw (Mock.an_error "boom"))
                      (Normal Mock.reply_score10))
       (Mock.upload None) (Mock.fresh tt))
    400
    (lit "Could not extract text from PDF. Please upload a proper text-based resume.")
  /\ lit "Could not extract text from PDF. Please upload a proper text-based resume."
     <> lit "OCR extraction failed: boom".
Proof.
  split.
  - exact (proj2 (proj2 (C6_failure_statuses
             (Mock.scripted (Mock.pdf_with [])
                            ([], Throw (Mock.an_error "boom"))
                            (Normal Mock.reply_score10))
             (Mock.upload None) (Mock.fresh tt)))
           Mock.resume_pdf None (Mock.pdf_with []) tt [] (Mock.an_error "boom")
           tt eq_refl eq_refl I eq_refl eq_refl I).
  - vm_compute. discriminate.
Defined.




(** C9.  A request whose [targetRole] is the empty string runs exactly as
    one without the field.  For both, a 200 answer carries the default role
    "Software Developer (Fresher)" in [targetRole], and the prompt sent to
    the AI client is built with the default role: it holds
    "Software Developer (Fresher)" between double quotes.  A role that is
    not empty is the one used, in the answer and in the prompt. *)
Theorem C9_empty_role_defaults
        (E : Type) (env : Env E) (f : File) (w : World E) :
  resume_upload env {| file := Some f; body_targetRole := Some [] |} w
  = resume_upload env {| file := Some f; body_targetRole := None |} w
  /\ (forall role,
         role = None \/ role = Some [] ->
         (forall r,
             response_to env {| file := Some f; body_targetRole := role |} w
             = Normal r ->
             status r = 200%Z ->
             field (lit "targetRole") (body r)
             = Some (JString (lit "Software Developer (Fresher)")))
         /\ (forall model prompt,
                ai_calls (world_after env
                            {| file := Some f; body_targetRole := role |} w)
                = ai_calls w ++ [(model, prompt)] ->
                includes prompt (quoted (lit "Software Developer (Fresher)"))
                = true
                /\ exists t,
                    prompt = jsonOnlyPrompt (analysis_prompt default_role t)))
  /\ (forall s,
         s <> [] ->
         (forall r,
             response_to env {| file := Some f; body_targetRole := Some s |} w
             = Normal r ->
             status r = 200%Z ->
             field (lit "targetRole") (body r) = Some (JString s))
         /\ (forall model prompt,
                ai_calls (world_after env
                            {| file := Some f; body_targetRole := Some s |} w)
                = ai_calls w ++ [(model, prompt)] ->
                includes prompt (quoted s) = true
                /\ exists t, prompt = jsonOnlyPrompt (analysis_prompt s t))).
Proof.
  assert (Hroles : forall role s,
             or_default role default_role = s ->
             (forall r,
                 response_to env {| file := Some f; body_targetRole := role |} w
                 = Normal r ->
                 status r = 200%Z ->
                 field (lit "targetRole") (body r) = Some (JString s))
             /\ (forall model prompt,
                    ai_calls (world_after env
                                {| file := Some f; body_targetRole := role |} w)
                    = ai_calls w ++ [(model, prompt)] ->
                    includes prompt (quoted s) = true
                    /\ exists t, prompt = jsonOnlyPrompt (analysis_prompt s t))).
  { intros role s Hdef.
    open_run env {| file := Some f; body_targetRole := role |} w.
    assert (Hnone : ai_calls w' = ai_calls w ->
                    forall model prompt,
                      ai_calls w' = ai_calls w ++ [(model, prompt)] ->
                      includes prompt (quoted s) = true
                      /\ exists t,
                          prompt = jsonOnlyPrompt (analysis_prompt s t)).
    { intros Hai model p Hp. rewrite Hai in Hp.
      apply (f_equal (@List.length _)) in Hp. rewrite length_app in Hp.
      cbn in Hp. lia. }
    paths P; try discriminate Hf.
    1-4: split; [intros r0 Hr H200; try discriminate Hr;
                 injection Hr as <-; discriminate H200
                | exact (Hnone Hai) ].
    subst role' prompt. cbn [body_targetRole] in *. rewrite Hdef in *.
    split.
    - intros r0 Hr H200. rewrite Hr in Hr'. unfold ai_response in Hr'.
      destruct (sent env s f' t c) as [a|x].
      + injection Hr' as ->. reflexivity.
      + destruct (read_message env x); [|discriminate Hr'].
        injection Hr' as ->. discriminate H200.
    - intros model p Hp. rewrite Hai in Hp.
      apply app_inv_head in Hp. injection Hp as _ <-.
      split; [apply prompt_includes_role|]. exists t. reflexivity. }
  split; [reflexivity|]. split.
  - intros role Hrole. apply Hroles.
    destruct Hrole; subst; reflexivity.
  - intros s Hs. apply Hroles.
    destruct s; [congruence | reflexivity].
Qed.

Lemma C9_witness :
  (includes (jsonOnlyPrompt
               (analysis_prompt default_role (repeat1 (ch "A") 200)))
            (quoted (lit "Software Developer (Fresher)"))
   = true)
  /\ field (lit "targetRole")
           (body (respond 200
                    (success_body default_role (lit "resume.pdf")
                                  (repeat1 (ch "A") 200) Mock.score10)))
     = Some (JString (lit "Software Developer (Fresher)"))
  /\ field (lit "targetRole")
           (body (respond 200
                    (success_body (lit "Data Analyst") (lit "resume.pdf")
                                  (repeat1 (ch "A") 200) Mock.score10)))
     = Some (JString (lit "Data Analyst")).
Proof.
  pose proof (C9_empty_role_defaults
                (Mock.scripted (Mock.pdf_with (repeat1 (ch "A") 200))
                               Mock.ocr_unused (Normal Mock.reply_score10))
                Mock.resume_pdf (Mock.fresh tt)) as (_ & Hdef & Hset).
  destruct (Hdef (Some []) (or_intror eq_refl)) as [Hrole Hprompt].
  split; [exact (proj1 (Hprompt model_name _ eq_refl))|].
  split; [exact (Hrole _ eq_refl eq_refl)|].
  refine (proj1 (Hset (lit "Data Analyst") _) _ eq_refl eq_refl).
  vm_compute. discriminate.
Defined.

(** The scripted services answer by their script alone. *)
Lemma scripted_deterministic
      (pdf : completion PdfData)
      (ocr : list jsstring * completion RecognizeResult)
      (ai : completion jsstring) :
  deterministic (Mock.scripted pdf ocr ai).
Proof. repeat split; intros; reflexivity. Qed.

(** The counting client is not deterministic, and two runs of one request
    against it differ. *)
Remark counting_runs_differ :
  response_to (Mock.counting (Mock.pdf_with (repeat1 (ch "A") 200)))
              (Mock.upload None) (Mock.fresh 1%nat)
  <> response_to (Mock.counting (Mock.pdf_with (repeat1 (ch "A") 200)))
                 (Mock.upload None) (Mock.fresh 2%nat).
Proof. vm_compute. discriminate. Qed.

(** C8.  Against services that answer each question the same way every
    time, two runs of the handler on one request give the same response,
    whatever the worlds they start in; in particular the second run may
    start where the first one ended.  The bodies are then the same value, so
    any serialisation of them gives the same bytes. *)
Theorem C8_repeatable
        (E : Type) (env : Env E) (req : Request) (w1 w2 : World E) :
  deterministic env ->
  response_to env req w1 = response_to env req w2
  /\ response_to env req (world_after env req w1) = response_to env req w1
  /\ (forall r1 r2 (stringify : json -> list byte),
         response_to env req w1 = Normal r1 ->
         response_to env req w2 = Normal r2 ->
         status r1 = status r2
         /\ stringify (body r1) = stringify (body r2)).
Proof.
  intros Hdet.
  pose proof (resume_upload_oblivious Hdet req) as Hob.
  split; [apply Hob|]. split; [apply Hob|].
  intros r1 r2 stringify H1 H2.
  assert (Heq : Normal r1 = Normal r2)
    by (rewrite <- H1, <- H2; apply Hob).
  injection Heq as ->. split; reflexivity.
Qed.

Lemma C8_witness :
  response_to
    (Mock.scripted (Mock.pdf_with (Mock.padded 60)) Mock.ocr_unused
                   (Normal Mock.wrapped_reply))
    (Mock.upload (Some (lit "Data Analyst")))
    (world_after
       (Mock.scripted (Mock.pdf_with (Mock.padded 60)) Mock.ocr_unused
                      (Normal Mock.wrapped_reply))
       (Mock.upload (Some (lit "Data Analyst"))) (Mock.fresh tt))
  = response_to
      (Mock.scripted (Mock.pdf_with (Mock.padded 60)) Mock.ocr_unused
                     (Normal Mock.wrapped_reply))
      (Mock.upload (Some (lit "Data Analyst"))) (Mock.fresh tt).
Proof.
  exact (proj1 (proj2 (C8_repeatable
                         (Mock.upload (Some (lit "Data Analyst")))
                         (Mock.fresh tt) (Mock.fresh tt)
                         (scripted_deterministic
                            (Mock.pdf_with (Mock.padded 60)) Mock.ocr_unused
                            (Normal Mock.wrapped_reply))))).
Defined.

(** C10.  On the OCR path the text the engine returned is used as it is:
    the prompt embeds it, white space at both ends included, so that it is
    not the prompt of the trimmed text, and [extractedChars] of a 200 answer
    is its length; only the two length tests trim it.  On the structured
    path the trimmed text is used for both. *)
Theorem C10_ocr_text_untrimmed
        (E : Type) (env : Env E) (f : File) (role : option jsstring)
        (w : World E) (cpdf : completion PdfData) (e1 : E) :
  pdfParse env (buffer f) (ext w) = (cpdf, e1) ->
  (forall progress t e2,
      loggable cpdf ->
      structured_text cpdf = [] ->
      recognize env (buffer f) (lit "eng") e1
      = (progress, Normal {| data_text := Some t |}, e2) ->
      (50 <= jslength (trim t))%nat ->
      ai_calls (world_after env {| file := Some f; body_targetRole := role |} w)
      = ai_calls w
          ++ [(model_name,
               jsonOnlyPrompt
                 (analysis_prompt (or_default role default_role) t))]
      /\ includes (jsonOnlyPrompt
                     (analysis_prompt (or_default role default_role) t)) t
         = true
      /\ (t <> trim t ->
          jsonOnlyPrompt (analysis_prompt (or_default role default_role) t)
          <> jsonOnlyPrompt
               (analysis_prompt (or_default role default_role) (trim t)))
      /\ (forall r,
             response_to env {| file := Some f; body_targetRole := role |} w
             = Normal r ->
             status r = 200%Z ->
             exists n,
               field (lit "extractedChars") (body r) = Some (JNumber n)
               /\ num_to_Z n = Some (Z.of_nat (jslength t)))
      /\ (forall c e3 analysis,
             generateContent env model_name
               (jsonOnlyPrompt
                  (analysis_prompt (or_default role default_role) t)) e2
             = (c, e3) ->
             sent env (or_default role default_role) f t c = Normal analysis ->
             exists r,
               response_to env {| file := Some f; body_targetRole := role |} w
               = Normal r
               /\ status r = 200%Z))
  /\ (forall d raw,
         cpdf = Normal d ->
         or_default (text d) [] = raw ->
         (50 <= jslength (trim raw))%nat ->
         ai_calls (world_after env {| file := Some f; body_targetRole := role |} w)
         = ai_calls w
             ++ [(model_name,
                  jsonOnlyPrompt
                    (analysis_prompt (or_default role default_role)
                                     (trim raw)))]
         /\ includes (jsonOnlyPrompt
                        (analysis_prompt (or_default role default_role)
                                         (trim raw)))
                     (trim raw)
            = true
         /\ (forall r,
                response_to env {| file := Some f; body_targetRole := role |} w
                = Normal r ->
                status r = 200%Z ->
                exists n,
                  field (lit "extractedChars") (body r) = Some (JNumber n)
                  /\ num_to_Z n = Some (Z.of_nat (jslength (trim raw))))
         /\ (forall c e2 analysis,
                generateContent env model_name
                  (jsonOnlyPrompt
                     (analysis_prompt (or_default role default_role)
                                      (trim raw))) e1
                = (c, e2) ->
                sent env (or_default role default_role) f (trim raw) c
                = Normal analysis ->
                exists r,
                  response_to env {| file := Some f; body_targetRole := role |} w
                  = Normal r
                  /\ status r = 200%Z)).
Proof.
  intros Hpdf.
  assert (Hrun : forall t src e,
             extraction env f w = (Text t src, e) ->
             (50 <= jslength (trim t))%nat ->
             ai_calls (world_after env
                         {| file := Some f; body_targetRole := role |} w)
             = ai_calls w
                 ++ [(model_name,
                      jsonOnlyPrompt
                        (analysis_prompt (or_default role default_role) t))]
             /\ (forall r,
                    response_to env
                      {| file := Some f; body_targetRole := role |} w
                    = Normal r ->
                    status r = 200%Z ->
                    exists n,
                      field (lit "extractedChars") (body r) = Some (JNumber n)
                      /\ num_to_Z n = Some (Z.of_nat (jslength t)))
             /\ (forall c e' analysis,
                    generateContent env model_name
                      (jsonOnlyPrompt
                         (analysis_prompt (or_default role default_role) t)) e
                    = (c, e') ->
                    sent env (or_default role default_role) f t c
                    = Normal analysis ->
                    exists r,
                      response_to env
                        {| file := Some f; body_targetRole := role |} w
                      = Normal r
                      /\ status r = 200%Z)).
  { intros t src e Hx Hlen.
    destruct (run_by_extraction env f role w Hx)
      as (res & w' & Hrun & _ & [(Hshort & _) | (_ & c & e' & Hgen & Hres & Hai)]);
      [lia|].
    unfold response_to, world_after. rewrite Hrun. cbn [fst snd].
    split; [exact Hai|]. split.
    - intros r Hr H200. rewrite Hr in Hres. unfold ai_response in Hres.
      destruct (sent env _ f t c) as [a|x].
      + injection Hres as ->. apply success_body_counts.
      + destruct (read_message env x); [|discriminate Hres].
        injection Hres as ->. discriminate H200.
    - intros c0 e0 analysis Hgen0 Hsent.
      rewrite Hgen in Hgen0. injection Hgen0 as -> ->.
      rewrite Hsent in Hres. cbn [ai_response] in Hres.
      eexists. split; [exact Hres | reflexivity]. }
  split.
  - intros progress t e2 Hlog Ht Hocr Hlen.
    assert (Hne : trim t <> [])
      by (intros H0; rewrite H0 in Hlen; cbn in Hlen; lia).
    destruct (Hrun t Ocr e2 (extraction_ocr env f w Hpdf Hlog Ht Hocr Hne) Hlen)
      as (Hai & Hchars & Hok).
    split; [exact Hai|]. split; [apply prompt_includes_text|].
    split; [|split; assumption].
    intros Hdiff Heq. apply prompt_text_inj in Heq. contradiction.
  - intros d raw -> Hraw Hlen.
    assert (Hne : trim (or_default (text d) []) <> [])
      by (rewrite Hraw; intros H0; rewrite H0 in Hlen; cbn in Hlen; lia).
    pose proof (extraction_structured env f w Hpdf Hne) as Hx.
    rewrite Hraw in Hx.
    assert (Hlen' : (50 <= jslength (trim (trim raw)))%nat)
      by (rewrite trim_idempotent; exact Hlen).
    destruct (Hrun (trim raw) Structured e1 Hx Hlen') as (Hai & Hchars & Hok).
    split; [exact Hai|]. split; [apply prompt_includes_text|].
    split; assumption.
Qed.

Lemma C10_witness :
  (exists r n,
      response_to
        (Mock.scripted (Mock.pdf_with []) (Mock.ocr_with (Mock.padded 50))
                       (Normal Mock.reply_score10))
        (Mock.upload None) (Mock.fresh tt)
      = Normal r
      /\ status r = 200%Z
      /\ field (lit "extractedChars") (body r) = Some (JNumber n)
      /\ num_to_Z n = Some 53%Z)
  /\ (exists r n,
         response_to
           (Mock.scripted (Mock.pdf_with (Mock.padded 50)) Mock.ocr_unused
                          (Normal Mock.reply_score10))
           (Mock.upload None) (Mock.fresh tt)
         = Normal r
         /\ status r = 200%Z
         /\ field (lit "extractedChars") (body r) = Some (JNumber n)
         /\ num_to_Z n = Some 50%Z)
  /\ jsonOnlyPrompt (analysis_prompt default_role (Mock.padded 50))
     <> jsonOnlyPrompt (analysis_prompt default_role (trim (Mock.padded 50))).
Proof.
  assert (L50 : (50 <= jslength (trim (Mock.padded 50)))%nat)
    by (apply Nat.leb_le; vm_compute; reflexivity).
  destruct (proj1 (C10_ocr_text_untrimmed
                     (Mock.scripted (Mock.pdf_with [])
                                    (Mock.ocr_with (Mock.padded 50))
                                    (Normal Mock.reply_score10))
                     Mock.resume_pdf None (Mock.fresh tt) eq_refl)
                  _ (Mock.padded 50) tt I eq_refl eq_refl L50)
    as (_ & _ & Hprompt & Hchars & Hok).
  destruct (proj2 (C10_ocr_text_untrimmed
                     (Mock.scripted (Mock.pdf_with (Mock.padded 50))
                                    Mock.ocr_unused
                                    (Normal Mock.reply_score10))
                     Mock.resume_pdf None (Mock.fresh tt) eq_refl)
                  _ (Mock.padded 50) eq_refl eq_refl L50)
    as (_ & _ & Hchars' & Hok').
  split; [|split].
  - destruct (Hok (Normal Mock.reply_score10) tt Mock.score10 eq_refl eq_refl)
      as (r & Hr & H200).
    destruct (Hchars r Hr H200) as (n & Hn & Hz).
    exists r, n. repeat split; assumption.
  - destruct (Hok' (Normal Mock.reply_score10) tt Mock.score10 eq_refl eq_refl)
      as (r & Hr & H200).
    destruct (Hchars' r Hr H200) as (n & Hn & Hz).
    exists r, n. repeat split; assumption.
  - apply Hprompt. vm_compute. discriminate.
Defined.

(** * More of the server *)

(** ** Braces inside a longer text *)

Module BraceFacts.

Lemma indexOf_after_prefix (pre r : jsstring) (c : char16) :
  ~ In c pre ->
  indexOf (pre ++ c :: r) c = Z.of_nat (List.length pre).
Proof.
  induction pre as [|x pre IH]; intros Hno.
  - simpl. rewrite N.eqb_refl. reflexivity.
  - assert (Hx : (x =? c)%N = false)
      by (apply N.eqb_neq; intros ->; apply Hno; left; reflexivity).
    cbn [app indexOf]. rewrite Hx.
    rewrite IH by (intros Hin; apply Hno; right; exact Hin).
    replace (Z.of_nat (List.length pre) <? 0)%Z with false
      by (symmetry; apply Z.ltb_ge; lia).
    cbn [List.length]. lia.
Qed.

Lemma lastIndexOf_before_suffix (x post : jsstring) (c : char16) :
  ~ In c post ->
  lastIndexOf (x ++ c :: post) c = Z.of_nat (List.length x).
Proof.
  intros Hno. induction x as [|y x IH].
  - cbn [app lastIndexOf].
    rewrite (proj2 (lastIndexOf_absent post c) Hno).
    rewrite N.eqb_refl. reflexivity.
  - cbn [app lastIndexOf]. rewrite IH.
    replace (0 <=? Z.of_nat (List.length x))%Z with true
      by (symmetry; apply Z.leb_le; lia).
    cbn [List.length]. lia.
Qed.

(** Slicing out the middle of three pieces gives the middle piece. *)
Lemma slice_middle (pre body post : jsstring) :
  slice (pre ++ body ++ post)
        (Z.of_nat (List.length pre))
        (Z.of_nat (List.length pre + List.length body))
  = body.
Proof.
  rewrite slice_inside by (rewrite !length_app; lia).
  rewrite skipn_app, skipn_all, Nat.sub_diag. cbn [skipn app].
  replace (List.length pre + List.length body - List.length pre)%nat
    with (List.length body) by lia.
  rewrite firstn_app, firstn_all, Nat.sub_diag. cbn [firstn].
  apply app_nil_r.
Qed.

(** An end that does not lie after the start gives the empty string. *)
Lemma slice_empty (s : jsstring) (a b : Z) :
  (0 <= a)%Z -> (0 <= b)%Z -> (b <= a)%Z -> slice s a b = [].
Proof.
  intros Ha Hb Hab. unfold slice.
  replace (a <? 0)%Z with false by (symmetry; apply Z.ltb_ge; lia).
  replace (b <? 0)%Z with false by (symmetry; apply Z.ltb_ge; lia).
  replace (Z.to_nat (Z.min b (Z.of_nat (List.length s))
                     - Z.min a (Z.of_nat (List.length s))))
    with 0%nat by lia.
  reflexivity.
Qed.

End BraceFacts.

Import BraceFacts.

(** X1.  A reply that wraps one object in other text is recovered: when the
    strict parse of the whole reply fails, the text before the object holds
    no left brace and the text after it holds no right brace, the decoder
    completes exactly as [JSON.parse] does on the object alone, from its
    opening brace to its closing brace. *)
Theorem X1_wrapped_object_recovered
        (E : Type) (env : Env E) (pre mid post : jsstring) :
  ~ In (ch "{") pre ->
  ~ In (ch "}") post ->
  JSON_parse (pre ++ (ch "{" :: mid ++ [ch "}"]) ++ post) = None ->
  parse_reply env (pre ++ (ch "{" :: mid ++ [ch "}"]) ++ post)
  = json_parse env (ch "{" :: mid ++ [ch "}"]).
Proof.
  intros Hpre Hpost Hstrict.
  unfold parse_reply. unfold json_parse at 1. rewrite Hstrict.
  assert (Hfirst : indexOf (pre ++ (ch "{" :: mid ++ [ch "}"]) ++ post) (ch "{")
                   = Z.of_nat (List.length pre)).
  { cbn [app]. apply indexOf_after_prefix. exact Hpre. }
  assert (Hlast : lastIndexOf (pre ++ (ch "{" :: mid ++ [ch "}"]) ++ post)
                              (ch "}")
                  = Z.of_nat (List.length pre + List.length mid + 1)).
  { replace (pre ++ (ch "{" :: mid ++ [ch "}"]) ++ post)
      with ((pre ++ ch "{" :: mid) ++ ch "}" :: post)
      by (cbn [app]; rewrite <- !app_assoc; reflexivity).
    rewrite lastIndexOf_before_suffix by exact Hpost.
    rewrite length_app. cbn [List.length]. f_equal. lia. }
  rewrite Hfirst, Hlast.
  replace (Z.of_nat (List.length pre) =? -1)%Z with false
    by (symmetry; apply Z.eqb_neq; lia).
  replace (Z.of_nat (List.length pre + List.length mid + 1) =? -1)%Z with false
    by (symmetry; apply Z.eqb_neq; lia).
  cbn [orb].
  replace (Z.of_nat (List.length pre + List.length mid + 1) + 1)%Z
    with (Z.of_nat (List.length pre
                    + List.length (ch "{" :: mid ++ [ch "}"])))
    by (cbn [List.length]; rewrite length_app; cbn [List.length]; lia).
  rewrite slice_middle. reflexivity.
Qed.

Lemma X1_witness :
  parse_reply (Mock.scripted (Mock.pdf_with []) Mock.ocr_unused (Normal []))
              Mock.fenced_reply
  = Normal Mock.score10.
Proof.
  exact (@X1_wrapped_object_recovered _
           (Mock.scripted (Mock.pdf_with []) Mock.ocr_unused (Normal []))
           (lit "```json" ++ nl)
           (quoted (lit "atsScore") ++ lit ":10")
           (nl ++ lit "```")
           ltac:(vm_compute; intuition discriminate)
           ltac:(vm_compute; intuition discriminate)
           eq_refl).
Defined.

(** X2.  When the strict parse fails and every right brace of the reply
    lies before its first left brace, the cleaned text is the empty string,
    so the decoder throws the SyntaxError of [JSON.parse] on the empty
    string, not the error "Gemini did not return JSON.". *)
Theorem X2_braces_out_of_order
        (E : Type) (env : Env E) (raw : jsstring) (first last : nat) :
  JSON_parse raw = None ->
  indexOf raw (ch "{") = Z.of_nat first ->
  lastIndexOf raw (ch "}") = Z.of_nat last ->
  (last < first)%nat ->
  parse_reply env raw
  = Throw {| err_name := lit "SyntaxError";
             message := syntaxErrorMessage env [] |}
  /\ parse_reply env raw <> Throw gemini_no_json.
Proof.
  intros Hstrict Hf Hl Hlt.
  assert (Hp : parse_reply env raw
               = Throw {| err_name := lit "SyntaxError";
                          message := syntaxErrorMessage env [] |}).
  { unfold parse_reply. unfold json_parse at 1. rewrite Hstrict, Hf, Hl.
    replace (Z.of_nat first =? -1)%Z with false
      by (symmetry; apply Z.eqb_neq; lia).
    replace (Z.of_nat last =? -1)%Z with false
      by (symmetry; apply Z.eqb_neq; lia).
    cbn [orb]. rewrite slice_empty by lia. reflexivity. }
  split; [exact Hp|].
  rewrite Hp. intros H. injection H as H _. vm_compute in H. discriminate H.
Qed.

Lemma X2_witness :
  parse_reply (Mock.scripted (Mock.pdf_with []) Mock.ocr_unused (Normal []))
              (lit "} then {")
  = Throw {| err_name := lit "SyntaxError"; message := lit "Unexpected token" |}.
Proof.
  exact (proj1 (@X2_braces_out_of_order _
                  (Mock.scripted (Mock.pdf_with []) Mock.ocr_unused (Normal []))
                  (lit "} then {") 7 0
                  eq_refl eq_refl eq_refl ltac:(lia))).
Defined.

(** ** From what the services answer to the response *)

Module MoreRuns.

(** Settle an equation on [extraction] from the answers and tests at hand. *)
Ltac settle_extraction :=
  unfold extraction; use_answers;
  cbn [structured_text ocr_text]; use_answers; reflexivity.

(** Read the tests of a leaf of a symbolic run. *)
Ltac read_tests :=
  rewrite ?too_short_test, ?no_text_test in *;
  repeat match goal with
    | H : negb _ = true |- _ => apply negb_true_iff in H
    | H : negb _ = false |- _ => apply negb_false_iff in H
    end.

Section WithEnv.

Variable E : Type.
Variable env : Env E.

(** The first [catch] throws only when pdf-parse rejected with [null] or
    [undefined]. *)
Lemma extraction_pdf_escapes (f : File) (w : World E) (n : nullish) (e : E) :
  extraction env f w = (PdfEscapes n, e) ->
  pdfParse env (buffer f) (ext w) = (Throw (Nullish n), e).
Proof.
  unfold extraction.
  destruct (pdfParse env (buffer f) (ext w)) as [[d|[perr|m|]] e1].
  2:{ destruct (truthy _); [discriminate|].
      destruct (recognize env _ _ e1) as [[progress [r|[oerr|k|]]] e2];
        try discriminate;
        cbn [ocr_text]; try (destruct (data_text r)); try discriminate;
        destruct (_ =? _)%nat; discriminate. }
  2:{ intros H. injection H as -> ->. reflexivity. }
  all: destruct (truthy _); [discriminate|];
    destruct (recognize env _ _ e1) as [[progress [r|[oerr|k|]]] e2];
    try discriminate;
    cbn [ocr_text]; try (destruct (data_text r)); try discriminate;
    destruct (_ =? _)%nat; discriminate.
Qed.

Lemma parse_reply_without_pdf_text :
  parse_reply (Mock.without_pdf_text env) = parse_reply env.
Proof. reflexivity. Qed.

Lemma read_message_without_pdf_text :
  read_message (Mock.without_pdf_text env) = read_message env.
Proof. reflexivity. Qed.

End WithEnv.

End MoreRuns.

Import MoreRuns.

(** X3.  What leaves the handler.  Either it answers, with status 200, 400
    or 500, or it throws the TypeError of reading [message] of [null] or
    [undefined]: that happens only when pdf-parse or the AI client rejected
    with such a value, in the [catch] that was to log it.  No error object
    thrown by pdf-parse, by Tesseract, by the AI client, by [JSON.parse] or
    by [res.json] leaves the handler. *)
Theorem X3_handler_answers_or_type_error
        (E : Type) (env : Env E) (req : Request) (w : World E) :
  (exists r,
      response_to env req w = Normal r
      /\ (status r = 200 \/ status r = 400 \/ status r = 500)%Z)
  \/ (exists f n,
         file req = Some f
         /\ response_to env req w = Throw (type_error env n)
         /\ (fst (pdfParse env (buffer f) (ext w)) = Throw (Nullish n)
             \/ exists t src e e',
                 extraction env f w = (Text t src, e)
                 /\ generateContent env model_name
                      (jsonOnlyPrompt
                         (analysis_prompt
                            (or_default (body_targetRole req) default_role) t))
                      e
                    = (Throw (Nullish n), e'))).
Proof.
  open_run env req w. paths P.
  1,3-5: left; eexists; split; [reflexivity | cbn; auto].
  - right. exists f', n. repeat split; [assumption|]. left.
    rewrite (extraction_pdf_escapes env f' w Hx). reflexivity.
  - subst role' prompt r'. unfold ai_response.
    destruct (sent env _ f' t c) as [a|[err|n|]] eqn:Hs; cbn [read_message].
    + left. eexists. split; [reflexivity | cbn; auto].
    + left. eexists. split; [reflexivity | cbn; auto].
    + right. exists f', n. repeat split; [assumption|]. right.
      exists t, src, e, e'. split; [assumption|].
      rewrite <- (sent_nullish _ _ _ _ _ Hs). exact Hgen.
    + left. eexists. split; [reflexivity | cbn; auto].
Qed.

(** X4.  One request makes at most one call to each service and never
    repeats one.  Without a file no service is called and nothing is
    logged.  With a file, pdf-parse is called exactly once, on the uploaded
    buffer; the OCR engine at most once, on that same buffer with language
    [eng]; the AI client at most once, with the model "gemini-2.5-flash" and
    a prompt in the JSON-only wrapper. *)
Theorem X4_one_call_per_service
        (E : Type) (env : Env E) (req : Request) (w : World E) :
  match file req with
  | None => world_after env req w = w
  | Some f =>
      pdf_calls (world_after env req w) = pdf_calls w ++ [buffer f]
      /\ (ocr_calls (world_after env req w) = ocr_calls w
          \/ ocr_calls (world_after env req w)
             = ocr_calls w ++ [(buffer f, lit "eng")])
      /\ (ai_calls (world_after env req w) = ai_calls w
          \/ exists prompt,
              ai_calls (world_after env req w)
              = ai_calls w ++ [(model_name, jsonOnlyPrompt prompt)])
  end.
Proof.
  destruct req as [[f|] role]; cbn [file]; [|reflexivity].
  unfold world_after. unfold_run. proj. split_run.
  all: proj; split; [reflexivity|]; split;
    first [ left; reflexivity
          | right; reflexivity
          | right; eexists; reflexivity ].
Qed.

(** X5.  An error thrown by pdf-parse is caught and only logged: its
    message goes to the console's error stream, the OCR engine is then
    called once on the uploaded buffer, and the response is the one the
    handler would give had pdf-parse found no text at all.  When the thrown
    value is [null] or [undefined], reading its message throws in the
    [catch]: that TypeError leaves the handler, and neither the OCR engine
    nor the AI client is called. *)
Theorem X5_pdf_error_falls_back_to_ocr
        (E : Type) (env : Env E) (f : File) (role : option jsstring)
        (w : World E) (x : thrown) (e1 : E) :
  pdfParse env (buffer f) (ext w) = (Throw x, e1) ->
  match x with
  | Nullish n =>
      response_to env {| file := Some f; body_targetRole := role |} w
      = Throw {| err_name := lit "TypeError";
                 message := typeErrorMessage env n |}
      /\ ocr_calls (world_after env {| file := Some f; body_targetRole := role |} w)
         = ocr_calls w
      /\ ai_calls (world_after env {| file := Some f; body_targetRole := role |} w)
         = ai_calls w
  | _ =>
      ocr_calls (world_after env {| file := Some f; body_targetRole := role |} w)
      = ocr_calls w ++ [(buffer f, lit "eng")]
      /\ In (Stderr,
             lit "PDF extraction failed: "
             ++ match x with
                | ErrorObject err => message err
                | _ => lit "undefined"
                end)
            (console (world_after env {| file := Some f; body_targetRole := role |} w))
      /\ response_to env {| file := Some f; body_targetRole := role |} w
         = response_to (Mock.without_pdf_text env)
                       {| file := Some f; body_targetRole := role |} w
  end.
Proof.
  intros Hpdf. unfold response_to, world_after.
  destruct x as [err|n|].
  2:{ unfold_run. proj. rewrite Hpdf. proj. repeat split. }
  all: unfold_run; rewrite parse_reply_without_pdf_text,
         read_message_without_pdf_text;
    unfold Mock.without_pdf_text;
    cbn [pdfParse recognize generateContent stringifyThrows]; proj;
    rewrite Hpdf; proj; cbn [or_default];
    change (trim []) with ([] : jsstring); proj;
    split_run.
  all: proj; split; [reflexivity|]; split; [|reflexivity].
  all: repeat rewrite in_app_iff; cbn [map In]; tauto.
Qed.

Lemma X5_witness :
  response_to
    (Mock.scripted (Throw (Mock.an_error "bad XRef entry"))
                   (Mock.ocr_with (Mock.padded 60)) (Normal Mock.reply_score10))
    (Mock.upload None) (Mock.fresh tt)
  = response_to
      (Mock.without_pdf_text
         (Mock.scripted (Throw (Mock.an_error "bad XRef entry"))
                        (Mock.ocr_with (Mock.padded 60))
                        (Normal Mock.reply_score10)))
      (Mock.upload None) (Mock.fresh tt)
  /\ response_to
       (Mock.scripted (Throw (Nullish JsNull))
                      (Mock.ocr_with (Mock.padded 60))
                      (Normal Mock.reply_score10))
       (Mock.upload None) (Mock.fresh tt)
     = Throw {| err_name := lit "TypeError";
                message :=
                  lit "Cannot read properties of null (reading 'message')" |}.
Proof.
  split.
  - exact (proj2 (proj2 (@X5_pdf_error_falls_back_to_ocr _
             (Mock.scripted (Throw (Mock.an_error "bad XRef entry"))
                            (Mock.ocr_with (Mock.padded 60))
                            (Normal Mock.reply_score10))
             Mock.resume_pdf None (Mock.fresh tt)
             (Mock.an_error "bad XRef entry") tt eq_refl))).
  - exact (proj1 (@X5_pdf_error_falls_back_to_ocr _
             (Mock.scripted (Throw (Nullish JsNull))
                            (Mock.ocr_with (Mock.padded 60))
                            (Normal Mock.reply_score10))
             Mock.resume_pdf None (Mock.fresh tt)
             (Nullish JsNull) tt eq_refl)).
Defined.

(** X6.  When the structured extractor leaves no text and the OCR engine
    gives nothing usable, the handler answers 400 after exactly one OCR
    call and never calls the AI client.  The message is the no-text one
    when the engine's result has no text, when its text is empty or only
    white space, however long, and when the engine throws an error whose
    message can be read.  It is "OCR extraction failed: " followed by the
    TypeError's message when the engine rejects with [null] or
    [undefined]: only then is the handler's own [catch] for OCR errors
    entered. *)
Theorem X6_no_text_from_either
        (E : Type) (env : Env E) (f : File) (role : option jsstring)
        (w : World E) (cpdf : completion PdfData) (e1 e2 : E)
        (progress : list jsstring) (cocr : completion RecognizeResult) :
  pdfParse env (buffer f) (ext w) = (cpdf, e1) ->
  loggable cpdf ->
  structured_text cpdf = [] ->
  recognize env (buffer f) (lit "eng") e1 = (progress, cocr, e2) ->
  match cocr with
  | Normal r =>
      match data_text r with
      | Some t => trim t = []
      | None => True
      end
  | Throw _ => True
  end ->
  error_answer
    (response_to env {| file := Some f; body_targetRole := role |} w)
    400
    match cocr with
    | Throw (Nullish n) =>
        lit "OCR extraction failed: " ++ typeErrorMessage env n
    | _ =>
        lit "Could not extract text from PDF. Please upload a proper text-based resume."
    end
  /\ ocr_calls (world_after env {| file := Some f; body_targetRole := role |} w)
     = ocr_calls w ++ [(buffer f, lit "eng")]
  /\ ai_calls (world_after env {| file := Some f; body_targetRole := role |} w)
     = ai_calls w.
Proof.
  intros Hpdf Hlog Ht Hocr Hnone.
  assert (Hx : extraction env f w
               = (match cocr with
                  | Throw (Nullish n) => OcrFailed n
                  | _ => NoText
                  end, e2)).
  { unfold extraction. rewrite Hpdf.
    destruct cpdf as [d|[perr|n|]]; cbn [structured_text loggable] in *;
      try contradiction; rewrite ?Ht; cbn [truthy]; rewrite Hocr;
      destruct cocr as [[[t|]]|[oerr|n|]]; cbn [ocr_text data_text] in *;
      rewrite ?Hnone; reflexivity. }
  destruct (run_by_extraction env f role w Hx) as (r & w' & Hrun & Hres).
  unfold response_to, world_after. rewrite Hrun. cbn [fst snd].
  destruct cocr as [[[t|]]|[oerr|n|]];
    destruct Hres as (-> & Ho & Ha);
    (split; [apply error_answer_intro | split; assumption]).
Qed.

Lemma X6_witness :
  error_answer
    (response_to
       (Mock.scripted (Mock.pdf_with (lit "  "))
                      (Mock.ocr_with (repeat1 32%N 500))
                      (Normal Mock.reply_score10))
       (Mock.upload None) (Mock.fresh tt))
    400
    (lit "Could not extract text from PDF. Please upload a proper text-based resume.")
  /\ error_answer
       (response_to
          (Mock.scripted (Mock.pdf_with [])
                         ([], Throw (Nullish JsUndefined))
                         (Normal Mock.reply_score10))
          (Mock.upload None) (Mock.fresh tt))
       400
       (lit "OCR extraction failed: Cannot read properties of undefined (reading 'message')").
Proof.
  split.
  - exact (proj1 (@X6_no_text_from_either _
             (Mock.scripted (Mock.pdf_with (lit "  "))
                            (Mock.ocr_with (repeat1 32%N 500))
                            (Normal Mock.reply_score10))
             Mock.resume_pdf None (Mock.fresh tt)
             (Mock.pdf_with (lit "  ")) tt tt
             [lit "recognizing text"]
             (Normal {| data_text := Some (repeat1 32%N 500) |})
             eq_refl I eq_refl eq_refl eq_refl)).
  - exact (proj1 (@X6_no_text_from_either _
             (Mock.scripted (Mock.pdf_with [])
                            ([], Throw (Nullish JsUndefined))
                            (Normal Mock.reply_score10))
             Mock.resume_pdf None (Mock.fresh tt)
             (Mock.pdf_with []) tt tt
             [] (Throw (Nullish JsUndefined))
             eq_refl I eq_refl eq_refl I)).
Defined.

(** X7.  [extractTextFromImage] calls the engine exactly once, on its
    argument with language [eng], and touches no other service.  It
    resolves to the engine's text as it is.  When the engine throws an
    error, it resolves to the empty string and the last line on the console
    is "OCR Error: " with the error's message, on the error stream
    ("undefined" for a thrown value without a message).  When the engine
    rejects with [null] or [undefined], reading the message throws in the
    [catch], and the helper throws that TypeError. *)
Theorem X7_extractTextFromImage_contract
        (E : Type) (env : Env E) (buf : bytes) (w : World E) :
  ocr_calls (snd (extractTextFromImage env buf w))
  = ocr_calls w ++ [(buf, lit "eng")]
  /\ pdf_calls (snd (extractTextFromImage env buf w)) = pdf_calls w
  /\ ai_calls (snd (extractTextFromImage env buf w)) = ai_calls w
  /\ ext (snd (extractTextFromImage env buf w))
     = snd (recognize env buf (lit "eng") (ext w))
  /\ match snd (fst (recognize env buf (lit "eng") (ext w))) with
     | Normal r =>
         fst (extractTextFromImage env buf w) = Normal (data_text r)
     | Throw (ErrorObject err) =>
         fst (extractTextFromImage env buf w) = Normal (Some [])
         /\ last (console (snd (extractTextFromImage env buf w))) (Stdout, [])
            = (Stderr, lit "OCR Error: " ++ message err)
     | Throw Messageless =>
         fst (extractTextFromImage env buf w) = Normal (Some [])
         /\ last (console (snd (extractTextFromImage env buf w))) (Stdout, [])
            = (Stderr, lit "OCR Error: undefined")
     | Throw (Nullish n) =>
         fst (extractTextFromImage env buf w)
         = Throw {| err_name := lit "TypeError";
                    message := typeErrorMessage env n |}
     end.
Proof.
  unfold_run. proj.
  destruct (recognize env buf (lit "eng") (ext w))
    as [[progress [r|[err|n|]]] e'];
    proj; repeat (split; [reflexivity|]); try reflexivity.
  all: cbn [map]; apply last_last.
Qed.

(** X8.  [askGeminiForJSON] calls the client exactly once, with the model
    "gemini-2.5-flash" and the prompt in the JSON-only wrapper, and writes
    nothing to the console.  An error thrown by the client leaves it
    unchanged: it is neither wrapped nor retried. *)
Theorem X8_askGeminiForJSON_contract
        (E : Type) (env : Env E) (prompt : jsstring) (w : World E) :
  ai_calls (snd (askGeminiForJSON env prompt w))
  = ai_calls w ++ [(model_name, jsonOnlyPrompt prompt)]
  /\ console (snd (askGeminiForJSON env prompt w)) = console w
  /\ pdf_calls (snd (askGeminiForJSON env prompt w)) = pdf_calls w
  /\ ocr_calls (snd (askGeminiForJSON env prompt w)) = ocr_calls w
  /\ fst (askGeminiForJSON env prompt w)
     = reply_result env
         (fst (generateContent env model_name (jsonOnlyPrompt prompt) (ext w)))
  /\ forall err, reply_result env (Throw err) = Throw err.
Proof.
  unfold askGeminiForJSON, call_generateContent, bind, lift.
  destruct (generateContent env model_name (jsonOnlyPrompt prompt) (ext w))
    as [[raw|err] e']; proj; repeat split.
Qed.

(** X9.  The decoded reply is not checked against the shape of a report:
    whatever JSON value the reply parses to, the handler answers 200 with
    the four fields, provided [res.json] can serialise the body. *)
Theorem X9_reply_shape_not_checked
        (E : Type) (env : Env E) (f : File) (role : option jsstring)
        (w : World E) (t : jsstring) (src : source) (e e' : E)
        (raw : jsstring) (v : json) :
  extraction env f w = (Text t src, e) ->
  (50 <= jslength (trim t))%nat ->
  generateContent env model_name
    (jsonOnlyPrompt (analysis_prompt (or_default role default_role) t)) e
  = (Normal raw, e') ->
  JSON_parse raw = Some v ->
  stringifyThrows env
    (success_body (or_default role default_role) (originalname f) t v)
  = None ->
  exists r,
    response_to env {| file := Some f; body_targetRole := role |} w = Normal r
    /\ status r = 200%Z
    /\ keys (body r)
       = [lit "targetRole"; lit "fileName"; lit "extractedChars";
          lit "analysis"].
Proof.
  intros Hx Hlen Hgen Hv Hser.
  destruct (run_by_extraction env f role w Hx)
    as (r & w' & Hrun & Ho & [(Hshort & _) | (_ & c & e0 & Hgen' & -> & _)]);
    [lia|].
  rewrite Hgen in Hgen'. injection Hgen' as <- <-.
  unfold response_to. rewrite Hrun. cbn [fst].
  unfold sent, reply_result, parse_reply, json_parse. rewrite Hv, Hser.
  cbn [ai_response]. eexists. repeat split.
Qed.

Lemma X9_witness :
  exists r,
    response_to
      (Mock.scripted (Mock.pdf_with (repeat1 (ch "A") 200)) Mock.ocr_unused
                     (Normal (lit "[true, null]")))
      (Mock.upload None) (Mock.fresh tt)
    = Normal r
    /\ status r = 200%Z.
Proof.
  destruct (@X9_reply_shape_not_checked _
              (Mock.scripted (Mock.pdf_with (repeat1 (ch "A") 200))
                             Mock.ocr_unused (Normal (lit "[true, null]")))
              Mock.resume_pdf None (Mock.fresh tt)
              (repeat1 (ch "A") 200) Structured tt tt
              (lit "[true, null]") (JArray [JBool true; JNull])
              ltac:(vm_compute; reflexivity)
              ltac:(apply Nat.leb_le; vm_compute; reflexivity)
              eq_refl
              ltac:(vm_compute; reflexivity)
              ltac:(vm_compute; reflexivity))
    as (r & Hr & H200 & _).
  exists r. split; assumption.
Defined.

(** X10.  A 500 answer always comes from the AI stage, and its cause is
    on the console: the text was extracted and long enough, and the call to
    the AI client, the decoding of its reply or [res.json] threw a value
    whose message could be read; the last line written, on the error stream,
    is "Gemini Error: " followed by that message, while the body is the
    fixed one. *)
Theorem X10_ai_error_is_logged
        (E : Type) (env : Env E) (req : Request) (w : World E) (r : Response) :
  response_to env req w = Normal r ->
  status r = 500%Z ->
  exists f t src e c e' x msg,
    file req = Some f
    /\ extraction env f w = (Text t src, e)
    /\ (50 <= jslength (trim t))%nat
    /\ generateContent env model_name
         (jsonOnlyPrompt
            (analysis_prompt (or_default (body_targetRole req) default_role) t))
         e
       = (c, e')
    /\ sent env (or_default (body_targetRole req) default_role) f t c = Throw x
    /\ read_message env x = Normal msg
    /\ body r
       = JObject [(lit "error",
                   JString (lit "AI analysis failed. Please try again."))]
    /\ last (console (world_after env req w)) (Stdout, [])
       = (Stderr, lit "Gemini Error: " ++ msg).
Proof.
  unfold response_to, world_after. revert r.
  unfold_run. destruct req as [[f|] role]; proj.
  2:{ intros r Hr H500. injection Hr as <-. discriminate H500. }
  split_run.
  all: intros r Hr H500; try discriminate Hr; injection Hr as <-;
    try discriminate H500.
  all: read_tests; try discriminate.
  all: do 8 eexists.
  all: split; [reflexivity|].
  all: split; [settle_extraction|].
  all: split; [tests; eassumption|].
  all: split; [eassumption|].
  all: split;
    [unfold sent, reply_result;
     repeat match goal with
            | H : parse_reply _ _ = _ |- _ => rewrite H
            | H : stringifyThrows _ _ = _ |- _ => rewrite H
            end;
     reflexivity|].
  all: split; [reflexivity|].
  all: split; [reflexivity|].
  all: proj; cbn [map]; apply last_last.
Qed.

Lemma X10_witness :
  last (console
          (world_after
             (Mock.scripted (Mock.pdf_with (repeat1 (ch "A") 200))
                            Mock.ocr_unused
                            (Normal (Mock.nested_reply 5000)))
             (Mock.upload None) (Mock.fresh tt)))
       (Stdout, [])
  = (Stderr, lit "Gemini Error: Maximum call stack size exceeded").
Proof.
  destruct (@X10_ai_error_is_logged _
              (Mock.scripted (Mock.pdf_with (repeat1 (ch "A") 200))
                             Mock.ocr_unused
                             (Normal (Mock.nested_reply 5000)))
              (Mock.upload None) (Mock.fresh tt)
              (respond 500 (error_body msg_ai_failed))
              ltac:(vm_compute; reflexivity) eq_refl)
    as (f & t & src & e & c & e' & x & msg
        & Hf & Hx & _ & Hgen & Hsent & Hmsg & _ & Hlast).
  injection Hf as <-.
  assert (Ht : t = repeat1 (ch "A") 200)
    by (vm_compute in Hx; injection Hx as <- _ _; reflexivity).
  subst t. injection Hgen as <- _.
  vm_compute in Hsent. injection Hsent as <-.
  injection Hmsg as <-. exact Hlast.
Defined.

(** ** What the prompt carries *)

(** X11.  The role and the resume text reach the AI client as they are:
    the request holds the role between double quotes and the text, neither
    escaped nor shortened, and for one role two different texts never give
    the same request. *)
Theorem X11_prompt_embeds_text
        (role t : jsstring) :
  includes (jsonOnlyPrompt (analysis_prompt role t)) (quoted role) = true
  /\ includes (jsonOnlyPrompt (analysis_prompt role t)) t = true
  /\ forall t',
      jsonOnlyPrompt (analysis_prompt role t)
      = jsonOnlyPrompt (analysis_prompt role t') ->
      t = t'.
Proof.
  split; [apply prompt_includes_role|].
  split; [apply prompt_includes_text|].
  intros t' H. exact (prompt_text_inj H).
Qed.

Lemma X11_witness :
  includes (jsonOnlyPrompt (analysis_prompt default_role (Mock.padded 3)))
           (Mock.padded 3) = true
  /\ Mock.padded 3 = Mock.padded 3.
Proof.
  split.
  - exact (proj1 (proj2 (X11_prompt_embeds_text default_role (Mock.padded 3)))).
  - exact (proj2 (proj2 (X11_prompt_embeds_text default_role (Mock.padded 3)))
                 (Mock.padded 3) eq_refl).
Defined.

(** X12.  The target role plays no part before the AI stage: a request
    that is answered 400 gets the same answer, whatever role it names. *)
Theorem X12_role_cannot_change_a_400
        (E : Type) (env : Env E) (f : File) (role role' : option jsstring)
        (w : World E) (r : Response) :
  response_to env {| file := Some f; body_targetRole := role |} w = Normal r ->
  status r = 400%Z ->
  response_to env {| file := Some f; body_targetRole := role' |} w = Normal r.
Proof.
  intros Hr H400.
  destruct (extraction env f w) as [x e] eqn:Hx.
  destruct (run_by_extraction env f role w Hx) as (r1 & w1 & Hrun1 & P1).
  destruct (run_by_extraction env f role' w Hx) as (r2 & w2 & Hrun2 & P2).
  unfold response_to in *. rewrite Hrun1 in Hr. rewrite Hrun2.
  cbn [fst] in *. subst r1.
  destruct x as [n|n| |t src].
  - destruct P1 as (H & _). discriminate H.
  - destruct P1 as (-> & _), P2 as (-> & _). reflexivity.
  - destruct P1 as (-> & _), P2 as (-> & _). reflexivity.
  - destruct P1 as (_ & [(L1 & -> & _) | (L1 & c1 & e1 & _ & H & _)]).
    + destruct P2 as (_ & [(_ & -> & _) | (L2 & _)]); [reflexivity | lia].
    + exfalso. unfold ai_response in H.
      destruct (sent env _ f t c1) as [a|y].
      * injection H as ->. discriminate H400.
      * destruct (read_message env y); [|discriminate H].
        injection H as ->. discriminate H400.
Qed.

Lemma X12_witness :
  response_to
    (Mock.scripted (Mock.pdf_with (Mock.padded 10)) Mock.ocr_unused
                   (Normal Mock.reply_score10))
    (Mock.upload (Some (lit "Data Analyst"))) (Mock.fresh tt)
  = Normal (respond 400 (error_body msg_too_short)).
Proof.
  exact (@X12_role_cannot_change_a_400 _
           (Mock.scripted (Mock.pdf_with (Mock.padded 10)) Mock.ocr_unused
                          (Normal Mock.reply_score10))
           Mock.resume_pdf None (Some (lit "Data Analyst")) (Mock.fresh tt)
           (respond 400 (error_body msg_too_short)) eq_refl eq_refl).
Defined.
